(** * ManusAI: the adaptive browser loop, its executor and its oracle adapter

    A shallow embedding of the parts of [src/agent.py], [src/browser_executor.py]
    and [src/utils.py] that drive the browser: the goal-completion heuristic,
    the search-query sanitizer, [execute_action], the page-oracle adapter and
    the adaptive loop of [_execute_browser_actions], with the Bernstein
    coefficient [binomial] and the way from a structured response to the
    plan ([_extract_commands], [_extract_browser_actions],
    [_extract_terminal_commands]).

    Python dictionaries are finite maps from keys to Python values, the
    browser (Playwright) and the language model are an explicit [world] whose
    answers may depend on everything that happened before, and every method
    that touches the browser runs in a small state-and-exception monad over
    the session. *)

From Stdlib Require Import ZArith Lia String Ascii List Bool.
From stdpp Require Import gmap strings list pretty.

Set Warnings "-register-all".
Local Open Scope string_scope.

(** ** Python values and strings *)

Module Py.

(** The values an action dictionary can hold after [json.loads]: [None],
    booleans, integers, strings and nested objects.  A nested object carries
    its printed form [str(d)], which depends on the insertion order that the
    finite map does not record.  Floats and arrays are left out. *)
Inductive pyval : Type :=
| VNone
| VBool (b : bool)
| VInt (n : Z)
| VStr (s : string)
| VDict (repr : string) (d : gmap string pyval).

(** [d.get(k)] : the value, or [None] when the key is missing. *)
Definition get (d : gmap string pyval) (k : string) : pyval :=
  match d !! k with Some v => v | None => VNone end.

(** [d.get(k, dflt)] *)
Definition get_or (d : gmap string pyval) (k : string) (dflt : pyval) : pyval :=
  match d !! k with Some v => v | None => dflt end.

(** [if d:] for a dictionary: it is not empty *)
Definition truthy_dict (d : gmap string pyval) : bool := negb (bool_decide (d = ∅)).

(** [k in d] *)
Definition has_key (d : gmap string pyval) (k : string) : bool :=
  match d !! k with Some _ => true | None => false end.

(** Truthiness, as used by [if v:] and [not v]. *)
Definition truthy (v : pyval) : bool :=
  match v with
  | VNone => false
  | VBool b => b
  | VInt n => negb (n =? 0)%Z
  | VStr s => negb (String.eqb s "")
  | VDict _ d => truthy_dict d
  end.

(** [str(v)], the text an f-string inserts. *)
Definition str (v : pyval) : string :=
  match v with
  | VNone => "None"
  | VBool true => "True"
  | VBool false => "False"
  | VInt n => pretty n
  | VStr s => s
  | VDict repr _ => repr
  end.

(** [type(v).__name__] *)
Definition type_name (v : pyval) : string :=
  match v with
  | VNone => "NoneType"
  | VBool _ => "bool"
  | VInt _ => "int"
  | VStr _ => "str"
  | VDict _ _ => "dict"
  end.

(** [v == s] for a string literal [s]. *)
Definition eq_str (v : pyval) (s : string) : bool :=
  match v with VStr t => String.eqb t s | _ => false end.

(** [l.count(s)] for a string literal [s]. *)
Fixpoint count (s : string) (l : list pyval) : nat :=
  match l with
  | [] => 0
  | v :: l' => (if eq_str v s then 1 else 0) + count s l'
  end.

(** [s in l] for a list [l] *)
Fixpoint mem (s : string) (l : list pyval) : bool :=
  match l with
  | [] => false
  | v :: l' => eq_str v s || mem s l'
  end.

(** [l[-1]] on a non-empty list (the model returns [None] on an empty one,
    where Python raises; the callers below index non-empty lists only). *)
Definition item_last (l : list pyval) : pyval := nth (length l - 1) l VNone.

(** [l[-3:]] *)
Definition slice_last3 (l : list pyval) : list pyval := drop (length l - 3) l.

(** *** Characters and strings (7-bit ASCII; the model follows CPython there) *)

Definition code (c : ascii) : nat := nat_of_ascii c.

Definition between (lo hi : nat) (c : ascii) : bool :=
  Nat.leb lo (code c) && Nat.leb (code c) hi.

Definition is_upper (c : ascii) : bool := between 65 90 c.
Definition is_lower (c : ascii) : bool := between 97 122 c.
Definition is_digit (c : ascii) : bool := between 48 57 c.

(** [str.isspace] on one character, which is also the class [\s] of [re]:
    tab to carriage return, the four separators 28..31, and the blank. *)
Definition is_space (c : ascii) : bool :=
  between 9 13 c || between 28 32 c.

(** the class [\w] of [re] *)
Definition is_word (c : ascii) : bool :=
  is_upper c || is_lower c || is_digit c || Nat.eqb (code c) 95.

Definition lower_char (c : ascii) : ascii :=
  if is_upper c then ascii_of_nat (code c + 32) else c.

(** [s.lower()] *)
Fixpoint lower (s : string) : string :=
  match s with
  | "" => ""
  | String c s' => String (lower_char c) (lower s')
  end.

(** [needle in hay] for two strings *)
Fixpoint contains (needle hay : string) : bool :=
  String.prefix needle hay ||
  match hay with
  | "" => false
  | String _ hay' => contains needle hay'
  end.

(** [s.split()] : the maximal runs of non-blank characters.  [cur] is the
    word being read, if any. *)
Fixpoint split_from (cur : option string) (s : string) : list string :=
  match s with
  | "" => match cur with Some w => [w] | None => [] end
  | String c s' =>
      if is_space c then
        match cur with
        | Some w => w :: split_from None s'
        | None => split_from None s'
        end
      else
        split_from (Some (match cur with Some w => w +:+ String c "" | None => String c "" end)) s'
  end.

Definition split (s : string) : list string := split_from None s.

(** [s.lstrip()], [s.rstrip()], [s.strip()] *)
Fixpoint lstrip (s : string) : string :=
  match s with
  | "" => ""
  | String c s' => if is_space c then lstrip s' else s
  end.

Fixpoint rstrip (s : string) : string :=
  match s with
  | "" => ""
  | String c s' =>
      match rstrip s' with
      | "" => if is_space c then "" else String c ""
      | r => String c r
      end
  end.

Definition strip (s : string) : string := rstrip (lstrip s).

(** [sep.join(l)] *)
Fixpoint join (sep : string) (l : list string) : string :=
  match l with
  | [] => ""
  | [x] => x
  | x :: l' => x +:+ sep +:+ join sep l'
  end.

End Py.

Import Py.

(** An action is a dictionary with an ['action_type'] and parameters. *)
Abbreviation action := (gmap string pyval).

(** ** [Agent._check_goal_completion] (agent.py) *)

Module Heuristic.

Definition _check_goal_completion (executed_actions : list action)
    (goal_description : string) : bool :=
  if Nat.leb 5 (length executed_actions) then
    let action_types := map (fun a => Py.get a "action_type") executed_actions in
    if Nat.leb 2 (Py.count "click" action_types)
       && Py.eq_str (Py.item_last action_types) "capture_state" then true
    else if Nat.leb 3 (Py.count "scroll" action_types)
       && negb (Py.mem "click" (Py.slice_last3 action_types)) then true
    else false
  else false.

End Heuristic.

(** ** The fragment of [re] that [_clean_search_query] uses *)

Module Re.

(** The phrase patterns of the source are of three shapes: a literal, a
    literal followed by a lazy [.*?] (which, ending the pattern, matches the
    empty string), and two literals with a lazy [.*?] between them. *)
Inductive pattern : Type :=
| Lit (a : string)
| LitLazy (a : string)
| LitLazyLit (a b : string).

(** [p] matches at the start of [s], under [re.IGNORECASE]. *)
Fixpoint prefix_ci (p s : string) : bool :=
  match p, s with
  | "", _ => true
  | String a p', String c s' =>
      Ascii.eqb (Py.lower_char a) (Py.lower_char c) && prefix_ci p' s'
  | String _ _, "" => false
  end.

Fixpoint skip (n : nat) (s : string) : string :=
  match n, s with
  | S n', String _ s' => skip n' s'
  | _, _ => s
  end.

(** [.] matches every character but the newline. *)
Definition is_newline (c : ascii) : bool := Nat.eqb (Py.code c) 10.

(** [.*?b] at the start of [s]: the length of the shortest match. *)
Fixpoint lazy_until (b s : string) : option nat :=
  if prefix_ci b s then Some (String.length b)
  else match s with
       | "" => None
       | String c s' =>
           if is_newline c then None
           else match lazy_until b s' with Some k => Some (S k) | None => None end
       end.

(** The length of the match of [p] at the start of [s], if there is one. *)
Definition match_len (p : pattern) (s : string) : option nat :=
  match p with
  | Lit a | LitLazy a =>
      if prefix_ci a s then Some (String.length a) else None
  | LitLazyLit a b =>
      if prefix_ci a s then
        match lazy_until b (skip (String.length a) s) with
        | Some k => Some (String.length a + k)
        | None => None
        end
      else None
  end.

(** [re.sub(p, "", s, flags=re.IGNORECASE)]: the leftmost matches, which do
    not overlap, are deleted.  [pending] counts the characters of the current
    match that are still to be deleted. *)
Fixpoint sub_from (p : pattern) (pending : nat) (s : string) : string :=
  match s with
  | "" => ""
  | String c s' =>
      match pending with
      | S k => sub_from p k s'
      | O =>
          match match_len p s with
          | Some (S k) => sub_from p k s'
          | _ => String c (sub_from p 0 s')
          end
      end
  end.

Definition sub_delete (p : pattern) (s : string) : string := sub_from p 0 s.

(** [re.sub(r'[^\w\s$%]', '', s)] *)
Fixpoint sub_punctuation (s : string) : string :=
  match s with
  | "" => ""
  | String c s' =>
      if Py.is_word c || Py.is_space c || Nat.eqb (Py.code c) 36 || Nat.eqb (Py.code c) 37
      then String c (sub_punctuation s')
      else sub_punctuation s'
  end.

(** [re.sub(r'\s+', ' ', s)]: every maximal run of blanks becomes one blank.
    [in_run] tells that the previous character was a blank. *)
Fixpoint sub_spaces_from (in_run : bool) (s : string) : string :=
  match s with
  | "" => ""
  | String c s' =>
      if Py.is_space c then
        if in_run then sub_spaces_from true s'
        else String " " (sub_spaces_from true s')
      else String c (sub_spaces_from false s')
  end.

Definition sub_spaces (s : string) : string := sub_spaces_from false s.

End Re.

(** ** [BrowserExecutor._clean_search_query] (browser_executor.py) *)

Module Query.

Definition instruction_markers : list string :=
  ["i'll"; "let me"; "first"; "then"; "help me"; "please"; "could you"].

Definition phrases_to_remove : list Re.pattern :=
  [ Re.LitLazyLit "i'll" "search for";
    Re.Lit "let me search for";
    Re.Lit "i will search for";
    Re.Lit "help me find";
    Re.Lit "please search for";
    Re.Lit "could you search for";
    Re.Lit "i need to find";
    Re.Lit "i want to search for";
    Re.Lit "search for";
    Re.Lit "looking for";
    Re.Lit "find";
    Re.LitLazy "first,";
    Re.LitLazy "then,";
    Re.LitLazy "next,";
    Re.LitLazy "finally,";
    Re.LitLazy "i'll";
    Re.LitLazy "i will";
    Re.LitLazy "let's";
    Re.LitLazy "let me" ].

(** [any(phrase in query.lower() for phrase in [...])] *)
Definition has_instruction_marker (query : string) : bool :=
  existsb (fun phrase => Py.contains phrase (Py.lower query)) instruction_markers.

(** the guard "already clean (short and simple)" *)
Definition already_clean (query : string) : bool :=
  Nat.leb (length (Py.split query)) 10 && negb (has_instruction_marker query).

Definition _clean_search_query (query : string) : string :=
  if already_clean query then query
  else
    let cleaned_query := Py.lower query in
    let cleaned_query :=
      fold_left (fun acc phrase => Re.sub_delete phrase acc) phrases_to_remove cleaned_query in
    let cleaned_query := Re.sub_punctuation cleaned_query in
    let cleaned_query := Py.strip (Re.sub_spaces cleaned_query) in
    if Nat.ltb (String.length cleaned_query) 3
    then Py.strip (Re.sub_punctuation query)
    else cleaned_query.

End Query.

(** ** The browser session and the world around it *)

Module Browser.

(** What the executor asks of the browser, in the order it happens.  The
    helper methods [navigate], [click], [click_element_by_text],
    [fill_input], [scroll], [search] and [capture_page_state] catch every
    exception themselves, so each is one event.  [EvConsole] keeps the
    console lines by which the loop tells why it stopped. *)
Inductive event : Type :=
| EvLaunch
| EvScreenshot (name : string)
| EvNavigate (url : pyval)
| EvClick (selector selector_type : pyval)
| EvClickText (text : pyval)
| EvWaitSelector (selector : string)
| EvFill (selector value selector_type : pyval)
| EvPressEnter
| EvScroll (direction distance : pyval)
| EvSleep (duration : pyval)
| EvSearch (query : string)
| EvCapture
| EvOracle (goal : string)
| EvAskKeepOpen
| EvClose
| EvConsole (line : string).

(** A captured page: the fields the report reads. *)
Record page_state : Type := {
  ps_url : string;
  ps_title : string;
  ps_visible_elements : list string
}.

(** What the page oracle does, seen from [get_ai_page_analysis]: the call
    raises, or its text is not JSON, or [json.loads] gives a value. *)
Inductive oracle_reply : Type :=
| OracleRaises (text : string)
| OracleUnparseable
| OracleJson (v : pyval).

(** The browser, the language model and the user at the console.  Every
    answer may depend on the whole history. *)
Record world : Type := {
  launch_ok : list event -> bool;
  page_url : list event -> string;
  selector_visible : list event -> string -> bool;
  captured : list event -> option page_state;
  page_oracle : list event -> string -> oracle_reply;
  search_summary : page_state -> string -> string;
  property_listings : page_state -> string;
  keep_open_answer : list event -> string;
  close_ok : list event -> bool
}.

(** The executor object: its flag, the history of what it asked of the
    browser, and a history variable that counts the calls of
    [execute_action] (the source has no such counter; the bound on the loop
    is stated with it). *)
Record session : Type := {
  is_initialized : bool;
  trace : list event;
  executions : nat
}.

(** [BrowserExecutor()] *)
Definition new_session : session :=
  {| is_initialized := false; trace := []; executions := 0 |}.

(** A Python exception, with [str(e)]. *)
Inductive exn : Type :=
| TypeError (text : string)
| AttributeError (text : string)
| KeyError (key : string).

Definition exn_str (e : exn) : string :=
  match e with
  | TypeError text => text
  | AttributeError text => text
  | KeyError key => "'" +:+ key +:+ "'"
  end.

Inductive outcome (A : Type) : Type :=
| Ret (a : A)
| Raise (e : exn).
Arguments Ret {A} a.
Arguments Raise {A} e.

(** Methods of the executor: they read and extend the session, and return
    or raise. *)
Definition M (A : Type) : Type := session -> outcome A * session.

Definition ret {A} (a : A) : M A := fun s => (Ret a, s).

Definition raise {A} (e : exn) : M A := fun s => (Raise e, s).

Definition bind {A B} (m : M A) (k : A -> M B) : M B :=
  fun s =>
    match m s with
    | (Ret a, s') => k a s'
    | (Raise e, s') => (Raise e, s')
    end.

(** [try: m  except Exception as e: handler e] *)
Definition try_except {A} (m : M A) (handler : exn -> M A) : M A :=
  fun s =>
    match m s with
    | (Ret a, s') => (Ret a, s')
    | (Raise e, s') => handler e s'
    end.

Notation "'let*' x ':=' m 'in' k" := (bind m (fun x => k))
  (at level 10, x name, m at level 100, k at level 200, only parsing).
Notation "m ';;' k" := (bind m (fun _ => k))
  (at level 100, k at level 200, right associativity, only parsing).

Definition emit (e : event) : M unit :=
  fun s => (Ret tt, {| is_initialized := is_initialized s;
                       trace := trace s ++ [e];
                       executions := executions s |}).

Definition get_trace : M (list event) := fun s => (Ret (trace s), s).

Definition get_initialized : M bool := fun s => (Ret (is_initialized s), s).

Definition set_initialized (b : bool) : M unit :=
  fun s => (Ret tt, {| is_initialized := b;
                       trace := trace s;
                       executions := executions s |}).

(** the history variable: one more call of [execute_action] *)
Definition count_execution : M unit :=
  fun s => (Ret tt, {| is_initialized := is_initialized s;
                       trace := trace s;
                       executions := S (executions s) |}).

Definition nl : string := String (ascii_of_nat 10) "".

Section Executor.

Variable w : world.

(** [initialize]: launches the browser unless it runs already; a failed
    launch is caught and reported as [False]. *)
Definition initialize : M bool :=
  let* ready := get_initialized in
  if ready then ret true
  else
    let* history := get_trace in
    emit EvLaunch ;;
    if launch_ok w history then set_initialized true ;; ret true
    else ret false.

(** The opening of every method:
    [if not self.is_initialized: if not await self.initialize(): ...]. *)
Definition ensure_initialized : M bool :=
  let* ready := get_initialized in
  if ready then ret true else initialize.

(** [_take_screenshot]: nothing without a session, and never raises. *)
Definition _take_screenshot (action_name : string) : M unit :=
  let* ready := get_initialized in
  if ready then emit (EvScreenshot action_name) else ret tt.

Definition navigate (url : pyval) : M unit :=
  let* ready := ensure_initialized in
  if ready then emit (EvNavigate url) else ret tt.

Definition click (selector selector_type : pyval) : M unit :=
  let* ready := ensure_initialized in
  if ready then emit (EvClick selector selector_type) else ret tt.

Definition click_element_by_text (text : pyval) : M unit :=
  let* ready := ensure_initialized in
  if ready then emit (EvClickText text) else ret tt.

Definition fill_input (selector value selector_type : pyval) : M unit :=
  let* ready := ensure_initialized in
  if ready then emit (EvFill selector value selector_type) else ret tt.

Definition scroll (direction distance : pyval) : M unit :=
  let* ready := ensure_initialized in
  if ready then emit (EvScroll direction distance) else ret tt.

Definition search (query : string) : M unit :=
  let* ready := ensure_initialized in
  if ready then emit (EvSearch query) else ret tt.

(** [capture_page_state]: [None] when the session cannot start or the
    capture fails. *)
Definition capture_page_state : M (option page_state) :=
  let* ready := ensure_initialized in
  if ready then
    let* history := get_trace in
    emit EvCapture ;;
    ret (captured w history)
  else ret None.

(** [self.page.url] *)
Definition current_page_url : M string :=
  let* history := get_trace in ret (page_url w history).

(** ["redfin.com" in url]: a substring test on a string and a key test on a
    dictionary; [TypeError] on anything else. *)
Definition check_container (v : pyval) : M unit :=
  match v with
  | VStr _ | VDict _ _ => ret tt
  | _ => raise (TypeError ("argument of type '" +:+ Py.type_name v +:+ "' is not iterable"))
  end.

(** [await asyncio.sleep(duration)]: the delay is compared with zero, which
    raises on anything but a number. *)
Definition sleep (duration : pyval) : M unit :=
  match duration with
  | VInt _ | VBool _ => emit (EvSleep duration)
  | _ => raise (TypeError ("'<=' not supported between instances of '"
                           +:+ Py.type_name duration +:+ "' and 'int'"))
  end.

(** [self._clean_search_query(query)] on whatever the action holds. *)
Definition clean_query_of (query : pyval) : M string :=
  match query with
  | VStr q => ret (Query._clean_search_query q)
  | _ => raise (AttributeError ("'" +:+ Py.type_name query +:+ "' object has no attribute 'split'"))
  end.

(** [website[key]] *)
Definition subscript (d : gmap string pyval) (key : string) : M pyval :=
  match d !! key with
  | Some v => ret v
  | None => raise (KeyError key)
  end.

Definition search_selectors : list string :=
  [ "input[type='search']";
    "input[name='search']";
    "input[placeholder*='search' i]";
    "input[placeholder*='find' i]";
    "input[placeholder*='location' i]";
    "input[placeholder*='address' i]";
    "input[placeholder*='city' i]";
    "input[placeholder*='where' i]";
    "input[aria-label*='search' i]";
    "input.search-input";
    ".search-box input";
    ".searchbox input";
    "[data-rf-test-id='search-box-input']";
    "[data-rf-test-name='search-box-input']";
    "input#search-box-input" ].

(** The [for search_selector in search_selectors] loop of the input branch:
    the first selector with a visible element is filled. *)
Fixpoint fill_first_search_box (selectors : list string) (value : pyval) : M string :=
  match selectors with
  | [] => ret ("Error: Could not find a search box to fill with value: " +:+ Py.str value)
  | search_selector :: rest =>
      let* history := get_trace in
      emit (EvWaitSelector search_selector) ;;
      if selector_visible w history search_selector then
        fill_input (VStr search_selector) value (VStr "css") ;;
        emit EvPressEnter ;;
        _take_screenshot "input_search" ;;
        ret ("Filled search box with value: " +:+ Py.str value)
      else fill_first_search_box rest value
  end.

(** [if "google.com" in current_url or "bing.com" in current_url or ...] *)
Definition on_search_engine (current_url : string) : bool :=
  Py.contains "google.com" current_url || Py.contains "bing.com" current_url
  || Py.contains "yahoo.com" current_url || Py.contains "duckduckgo.com" current_url.

(** [website and isinstance(website, dict) and 'url' in website] *)
Definition website_given (website : pyval) : option (gmap string pyval) :=
  match website with
  | VDict _ d => if Py.truthy website && Py.has_key d "url" then Some d else None
  | _ => None
  end.


(** The body of the [try] of [execute_action], after the screenshot. *)
Definition dispatch (action_type : string) (action : action) : M string :=
  if String.eqb action_type "navigate" then
    let url := Py.get_or action "url" (VStr "") in
    if Py.truthy url then
      check_container url ;;
      navigate url ;;
      _take_screenshot "navigate" ;;
      ret ("Navigated to: " +:+ Py.str url)
    else ret "Error: No URL provided for navigation"
  else if String.eqb action_type "click" then
    let selector := Py.get action "selector" in
    let text := Py.get action "text" in
    let selector_type := Py.get_or action "selector_type" (VStr "css") in
    if Py.truthy selector then
      click selector selector_type ;;
      _take_screenshot "click" ;;
      ret ("Clicked element with selector: " +:+ Py.str selector)
    else if Py.truthy text then
      click_element_by_text text ;;
      _take_screenshot "click_text" ;;
      ret ("Clicked element with text: " +:+ Py.str text)
    else ret "Error: No selector or text provided for click action"
  else if String.eqb action_type "input" then
    let selector := Py.get action "selector" in
    let value := Py.get_or action "value" (VStr "") in
    let selector_type := Py.get_or action "selector_type" (VStr "css") in
    if negb (Py.truthy selector) then fill_first_search_box search_selectors value
    else
      fill_input selector value selector_type ;;
      emit EvPressEnter ;;
      _take_screenshot "input_selector" ;;
      ret ("Filled input " +:+ Py.str selector +:+ " with value: " +:+ Py.str value)
  else if String.eqb action_type "scroll" then
    let direction := Py.get_or action "direction" (VStr "down") in
    let distance := Py.get_or action "distance" (VInt 500) in
    scroll direction distance ;;
    _take_screenshot "scroll" ;;
    ret ("Scrolled " +:+ Py.str direction +:+ " by " +:+ Py.str distance +:+ " pixels")
  else if String.eqb action_type "wait" then
    let duration := Py.get_or action "duration" (VInt 2) in
    sleep duration ;;
    ret ("Waited for " +:+ Py.str duration +:+ " seconds")
  else if String.eqb action_type "search" then
    let website := Py.get_or action "website" VNone in
    let* query := clean_query_of (Py.get_or action "query" (VStr "")) in
    match website_given website with
    | Some site =>
        let* url := subscript site "url" in
        navigate url ;;
        let* name := subscript site "name" in
        search query ;;
        _take_screenshot "search_website" ;;
        ret ("Searched for '" +:+ query +:+ "' on " +:+ Py.str name)
    | None =>
        let* current_url := current_page_url in
        if on_search_engine current_url then
          search query ;;
          _take_screenshot "search_current" ;;
          ret ("Searched for '" +:+ query +:+ "' on current page")
        else
          navigate (VStr "https://www.google.com") ;;
          search query ;;
          _take_screenshot "search_google" ;;
          ret ("Searched for '" +:+ query +:+ "' on Google")
    end
  else if String.eqb action_type "capture_state" then
    capture_page_state ;;
    ret "Captured current page state"
  else ret ("Error: Unknown action type: " +:+ action_type).

(** [action.get('action_type', '').lower()], which stands before the [try]. *)
Definition action_type_of (action : action) : M string :=
  match Py.get_or action "action_type" (VStr "") with
  | VStr kind => ret (Py.lower kind)
  | v => raise (AttributeError ("'" +:+ Py.type_name v +:+ "' object has no attribute 'lower'"))
  end.

Definition execute_action (action : action) : M string :=
  count_execution ;;
  let* ready := ensure_initialized in
  if negb ready then ret "Failed to initialize browser."
  else
    let* action_type := action_type_of action in
    try_except
      (_take_screenshot ("before_" +:+ action_type) ;;
       dispatch action_type action)
      (fun e => ret ("Error executing " +:+ action_type +:+ " action: " +:+ exn_str e)).

End Executor.

End Browser.

(** ** [get_ai_page_analysis] (utils.py) and
       [BrowserExecutor.analyze_page_for_next_action] *)

Module Oracle.

Import Browser.

(** The dictionary the three fallback places build; only the description
    differs. *)
Definition fallback_action (description : string) : action :=
  <["action_type" := VStr "scroll"]>
    (<["direction" := VStr "down"]>
      (<["distance" := VInt 500]>
        (<["description" := VStr description]> ∅))).

(** The conversion of the oracle's vocabulary into the executor's. *)
Definition convert (next_action : gmap string pyval) : action :=
  let converted_action : action :=
    <["action_type" := Py.get_or next_action "action_type" (VStr "scroll")]>
      (<["description" := Py.get_or next_action "description" (VStr "No description provided")]> ∅) in
  let kind := Py.get next_action "action_type" in
  if Py.eq_str kind "click" then
    let selector_strategy := Py.get_or next_action "selector_strategy" (VStr "text") in
    let selector_value := Py.get_or next_action "selector_value" (VStr "") in
    if Py.eq_str selector_strategy "id" then
      <["selector" := VStr ("#" +:+ Py.str selector_value)]> converted_action
    else if Py.eq_str selector_strategy "class" then
      <["selector" := VStr ("." +:+ Py.str selector_value)]> converted_action
    else if Py.eq_str selector_strategy "xpath" then
      <["selector_type" := VStr "xpath"]> (<["selector" := selector_value]> converted_action)
    else <["text" := selector_value]> converted_action
  else if Py.eq_str kind "input" then
    let selector_strategy := Py.get_or next_action "selector_strategy" (VStr "id") in
    let selector_value := Py.get_or next_action "selector_value" (VStr "") in
    let with_selector : action :=
      if Py.eq_str selector_strategy "id" then
        <["selector" := VStr ("#" +:+ Py.str selector_value)]> converted_action
      else if Py.eq_str selector_strategy "name" then
        <["selector" := VStr ("[name='" +:+ Py.str selector_value +:+ "']")]> converted_action
      else if Py.eq_str selector_strategy "placeholder" then
        <["selector" := VStr ("[placeholder='" +:+ Py.str selector_value +:+ "']")]> converted_action
      else <["selector" := VStr ("#" +:+ Py.str selector_value)]> converted_action in
    <["value" := Py.get_or next_action "input_value" (VStr "")]> with_selector
  else if Py.eq_str kind "scroll" then
    <["distance" := Py.get_or next_action "distance" (VInt 500)]>
      (<["direction" := Py.get_or next_action "direction" (VStr "down")]> converted_action)
  else if Py.eq_str kind "wait" then
    <["duration" := Py.get_or next_action "duration" (VInt 2)]> converted_action
  else if Py.eq_str kind "navigate" then
    <["url" := Py.get_or next_action "url" (VStr "")]> converted_action
  else converted_action.

(** [get_ai_page_analysis], as a function of what the oracle did.  A JSON
    value that is not an object has no [get]: the [AttributeError] is not a
    [JSONDecodeError] and reaches the outer handler. *)
Definition get_ai_page_analysis (reply : oracle_reply) : action :=
  match reply with
  | OracleRaises _ =>
      fallback_action "Scroll down to see more content (fallback action after exception)"
  | OracleUnparseable =>
      fallback_action "Scroll down to see more content (fallback action after JSON parse error)"
  | OracleJson (VDict _ next_action) => convert next_action
  | OracleJson _ =>
      fallback_action "Scroll down to see more content (fallback action after exception)"
  end.

Section Adapter.

Variable w : world.

Definition analyze_page_for_next_action (goal_description : string) : M (option action) :=
  let* ready := ensure_initialized w in
  if negb ready then ret None
  else
    try_except
      (let* page_state := capture_page_state w in
       match page_state with
       | None => ret None
       | Some _ =>
           let* history := get_trace in
           emit (EvOracle goal_description) ;;
           let next_action := get_ai_page_analysis (page_oracle w history goal_description) in
           if Py.truthy_dict next_action && Py.has_key next_action "action_type"
           then ret (Some next_action)
           else ret (Some (fallback_action "Scroll down to see more content (fallback action)"))
       end)
      (fun _ => ret (Some (fallback_action "Scroll down to see more content (fallback after error)"))).

End Adapter.

End Oracle.

(** ** [Agent._execute_browser_actions] (agent.py) *)

Module Agent.

Import Browser.
Export Heuristic.

Definition max_actions : nat := 20.

(** Why the [while] loop was left.  The source tells it on the console only;
    [OutOfFuel] is the model running out of recursion depth, which
    [adaptive_loop] below never does when started with [max_actions]. *)
Inductive stop_cause : Type :=
| StepLimit
| CaptureFailed
| NoSuggestion
| GoalReached
| OutOfFuel.

(** The local variables of the loop. *)
Record loop_state : Type := {
  results : list string;
  executed_actions : list action;
  action_count : nat
}.

Section Loop.

Variable w : world.

(** [_display_action_info]: console output only, but the navigate branch
    tests ["redfin.com" in url] on whatever the action holds. *)
Definition _display_action_info (step_number : nat) (action_type : pyval)
    (action : action) : M unit :=
  if Py.eq_str action_type "navigate"
  then check_container (Py.get_or action "url" (VStr ""))
  else ret tt.

(** [if not next_action: break]: neither [None] nor an empty dictionary is
    a suggestion. *)
Definition usable (next_action : option action) : option action :=
  match next_action with
  | Some a => if Py.truthy_dict a then Some a else None
  | None => None
  end.

(** The [while action_count < max_actions] loop.  [fuel] bounds the depth of
    the recursion. *)
Fixpoint adaptive_loop (fuel : nat) (goal_description : string) (st : loop_state)
    : M (stop_cause * loop_state) :=
  if negb (Nat.ltb (action_count st) max_actions) then ret (StepLimit, st)
  else
    match fuel with
    | O => ret (OutOfFuel, st)
    | S fuel' =>
        let* page_state := capture_page_state w in
        match page_state with
        | None =>
            emit (EvConsole "[bold red]Error capturing page state. Stopping execution.[/bold red]") ;;
            ret (CaptureFailed, st)
        | Some _ =>
            let* next_action := Oracle.analyze_page_for_next_action w goal_description in
            match usable next_action with
            | None =>
                emit (EvConsole "[bold yellow]No further actions suggested. Stopping execution.[/bold yellow]") ;;
                ret (NoSuggestion, st)
            | Some next_action =>
                if _check_goal_completion (executed_actions st) goal_description then
                  emit (EvConsole "[bold green]Goal appears to be completed. Stopping execution.[/bold green]") ;;
                  ret (GoalReached, st)
                else
                  let action_count' := action_count st + 1 in
                  let action_type := Py.get_or next_action "action_type" (VStr "") in
                  _display_action_info action_count' action_type next_action ;;
                  let* result := execute_action w next_action in
                  sleep (VInt 1) ;;
                  adaptive_loop fuel' goal_description
                    {| results := results st ++ [result];
                       executed_actions := executed_actions st ++ [next_action];
                       action_count := action_count' |}
            end
        end
    end.

(** [close]: a failure to close is printed, not raised. *)
Definition close : M unit :=
  let* ready := get_initialized in
  if ready then
    let* history := get_trace in
    emit EvClose ;;
    if close_ok w history then set_initialized false else ret tt
  else ret tt.

Definition real_estate_domains : list string :=
  ["redfin.com"; "zillow.com"; "apartments.com"; "trulia.com"].

(** The text about the final page: nothing when the last capture failed. *)
Definition page_info_of (final_state : option page_state) (goal_description : string) : string :=
  match final_state with
  | None => ""
  | Some fs =>
      "Final URL: " +:+ ps_url fs +:+ nl +:+ "Page Title: " +:+ ps_title fs +:+ nl +:+ nl
      +:+ "Search Results Summary:" +:+ nl +:+ search_summary w fs goal_description +:+ nl +:+ nl
      +:+ (if existsb (fun domain => Py.contains domain (ps_url fs)) real_estate_domains
           then property_listings w fs else "")
  end.

(** The string the function returns when nothing was raised. *)
Definition format_report (executed_actions : list action) (results : list string)
    (page_info : string) : string :=
  let actions_summary :=
    Py.join nl (map (fun a => "- " +:+ Py.str (Py.get_or a "description" (VStr "No description")))
                    executed_actions) in
  nl +:+ "Browser Automation Results:" +:+ nl +:+ nl
  +:+ "Actions Executed:" +:+ nl +:+ actions_summary +:+ nl +:+ nl
  +:+ page_info +:+ nl +:+ nl
  +:+ "Results:" +:+ nl +:+ Py.join " " results +:+ nl.

(** What follows the loop: the notice about the step limit, the final
    capture, the report, and the question whether to keep the browser. *)
Definition report_and_close (st : loop_state) (goal_description : string) : M string :=
  (if Nat.leb max_actions (action_count st)
   then emit (EvConsole "[bold yellow]Reached maximum number of actions. Stopping execution.[/bold yellow]")
   else ret tt) ;;
  let* final_state := capture_page_state w in
  let page_info := page_info_of final_state goal_description in
  let* history := get_trace in
  emit EvAskKeepOpen ;;
  (if negb (String.eqb (Py.lower (keep_open_answer w history)) "y") then close else ret tt) ;;
  ret (format_report (executed_actions st) (results st) page_info).

(** The body of the [try]. *)
Definition run_plan (fuel : nat) (initial_action : action) (goal_description : string)
    : M string :=
  let action_type := Py.get_or initial_action "action_type" (VStr "") in
  _display_action_info 1 action_type initial_action ;;
  let* result := execute_action w initial_action in
  let* stopped := adaptive_loop fuel goal_description
                    {| results := [result];
                       executed_actions := [initial_action];
                       action_count := 1 |} in
  report_and_close (snd stopped) goal_description.

(** The [except Exception as e] of the function. *)
Definition on_error (e : exn) : M string :=
  close ;;
  ret ("Error executing browser actions: " +:+ exn_str e).

(** [self.browser_executor] is [None] until the first run creates it. *)
Definition _execute_browser_actions_fuel (fuel : nat) (browser_executor : option session)
    (browser_plan : list action) (goal_description : string)
    : outcome string * option session :=
  match browser_plan with
  | [] => (Ret "No browser actions to execute.", browser_executor)
  | initial_action :: _ =>
      let '(started, s) :=
        match browser_executor with
        | Some s => (true, s)
        | None =>
            match initialize w new_session with
            | (Ret ok, s) => (ok, s)
            | (Raise _, s) => (false, s)
            end
        end in
      if negb started then (Ret "Failed to initialize browser.", Some s)
      else
        let '(out, s') :=
          try_except (run_plan fuel initial_action goal_description) on_error s in
        (out, Some s')
  end.

Definition _execute_browser_actions := _execute_browser_actions_fuel max_actions.

End Loop.

End Agent.

(** ** [binomial] (browser_executor.py) *)

Module Curve.

(** The coefficient of the Bernstein polynomials of [bezier_point].  Python
    integers are unbounded, and [//] is the floor division. *)
Definition binomial (n k : Z) : Z :=
  if ((k <? 0) || (n <? k))%Z then 0%Z
  else if ((k =? 0) || (k =? n))%Z then 1%Z
  else
    fold_left (fun result i => (result * (n - i) / (i + 1))%Z)
              (map Z.of_nat (seq 0 (Z.to_nat k))) 1%Z.

End Curve.

(** ** From the model's response to a plan (agent.py) *)

Module Plan.

Import Browser.

(** A response in JSON mode, after [json.loads].  Numbers with a fraction
    are left out; no branch below looks at a number. *)
Inductive json : Type :=
| JNull
| JBool (b : bool)
| JInt (n : Z)
| JStr (s : string)
| JList (items : list json)
| JDict (entries : gmap string json).

Definition type_name (v : json) : string :=
  match v with
  | JNull => "NoneType"
  | JBool _ => "bool"
  | JInt _ => "int"
  | JStr _ => "str"
  | JList _ => "list"
  | JDict _ => "dict"
  end.

(** [k in d] *)
Definition has_key (d : gmap string json) (k : string) : bool :=
  match d !! k with Some _ => true | None => false end.

(** [d.get(k) == s] for a string literal [s] *)
Definition get_is (d : gmap string json) (k s : string) : bool :=
  match d !! k with Some (JStr t) => String.eqb t s | _ => false end.

(** [d.get(k) in l] for a list [l] of string literals *)
Definition get_in (d : gmap string json) (k : string) (l : list string) : bool :=
  existsb (get_is d k) l.

(** The websites that a query can name, in the order of the dictionary
    literal: the keyword, the name and the address. *)
Definition website_mentions : list (string * (string * string)) :=
  [ ("redfin", ("Redfin", "https://www.redfin.com/city/30749/NY/New-York/apartments-for-rent"));
    ("zillow", ("Zillow", "https://www.zillow.com/homes/for_rent/"));
    ("apartments.com", ("Apartments.com", "https://www.apartments.com/new-york-ny/"));
    ("trulia", ("Trulia", "https://www.trulia.com/for_rent/New_York,NY/")) ].

(** The loop over [website_mentions.items()], which stops at the first
    keyword that the query holds. *)
Definition direct_navigation (query : string) : option (string * string) :=
  option_map snd
    (find (fun site => Py.contains (fst site) (Py.lower query)) website_mentions).

Definition browser_command (action : json) : json :=
  JDict (<["type" := JStr "browser"]> (<["action" := action]> ∅)).

Definition terminal_command (cmd : string) : json :=
  JDict (<["type" := JStr "terminal"]> (<["command" := JStr cmd]> ∅)).

Definition navigate_directly (site : string * string) (query : string) : json :=
  JDict (<["action_type" := JStr "navigate"]>
          (<["url" := JStr (snd site)]>
            (<["description" :=
                 JStr ("Navigate directly to " +:+ fst site +:+ " to find '" +:+ query +:+ "'")]>
               ∅))).

(** The commands for [response["browser_action"]].  The first test calls
    [browser_action.get], so that everything but an object raises; the branch
    of the source for a list of actions is behind that test. *)
Definition browser_commands (browser_action : json) : outcome (list json) :=
  match browser_action with
  | JDict d =>
      if get_is d "action_type" "search" && has_key d "query" then
        match (match d !! "query" with Some v => v | None => JStr "" end) with
        | JStr query =>
            match direct_navigation query with
            | Some site => Ret [browser_command (navigate_directly site query)]
            | None => Ret [browser_command browser_action]
            end
        | v =>
            Raise (AttributeError ("'" +:+ type_name v +:+ "' object has no attribute 'lower'"))
        end
      else if has_key d "action_type" then Ret [browser_command browser_action]
      else Ret []
  | v => Raise (AttributeError ("'" +:+ type_name v +:+ "' object has no attribute 'get'"))
  end.

(** The commands for [response["terminal_commands"]]: the strings of a
    list, or one string. *)
Definition terminal_commands (v : json) : list json :=
  match v with
  | JList items =>
      flat_map (fun cmd => match cmd with JStr c => [terminal_command c] | _ => [] end) items
  | JStr c => [terminal_command c]
  | _ => []
  end.

(** [_extract_commands] on a response that is an object (the branch of
    [isinstance(response, dict)]). *)
Definition _extract_commands (response : gmap string json) : outcome (list json) :=
  match
    match response !! "browser_action" with
    | Some browser_action => browser_commands browser_action
    | None => Ret []
    end
  with
  | Ret commands =>
      Ret (commands ++ match response !! "terminal_commands" with
                       | Some v => terminal_commands v
                       | None => []
                       end)%list
  | Raise e => Raise e
  end.

(** [isinstance(action, dict) and "action_type" in action] *)
Definition is_action (action : json) : bool :=
  match action with
  | JDict d => has_key d "action_type"
  | _ => false
  end.

Definition _extract_browser_actions (commands : list json) : list json :=
  flat_map
    (fun command =>
       match command with
       | JDict c =>
           if get_in c "type" ["browser"; "web"] then
             let action := match c !! "action" with Some a => a | None => JDict ∅ end in
             if is_action action then [action]
             else match c !! "actions" with
                  | Some (JList actions) => filter (fun a => is_action a = true) actions
                  | _ => []
                  end
           else []
       | _ => []
       end)
    commands.

(** [isinstance(cmd, str)], with the string *)
Definition as_str (cmd : json) : option string :=
  match cmd with JStr c => Some c | _ => None end.

Definition _extract_terminal_commands (commands : list json) : list string :=
  flat_map
    (fun command =>
       match command with
       | JDict c =>
           if get_in c "type" ["terminal"; "command"] then
             match c !! "command" with
             | Some (JStr (String a cmd)) => [String a cmd]
             | _ =>
                 match c !! "commands" with
                 | Some (JList cmds) => omap as_str cmds
                 | _ => []
                 end
             end
           else []
       | _ => []
       end)
    commands.

End Plan.

(** ** Sample worlds and actions, for the examples below *)

Module Samples.

Import Browser.

Definition sample_page : page_state :=
  {| ps_url := "https://example.org/list";
     ps_title := "Listings";
     ps_visible_elements := ["Listings"; "Next"] |}.

Definition wait_suggestion : pyval :=
  VDict "{'action_type': 'wait', 'duration': 1, 'description': 'Wait for the page'}"
    (<["action_type" := VStr "wait"]>
      (<["duration" := VInt 1]>
        (<["description" := VStr "Wait for the page"]> ∅))).

(** A browser that always works, an oracle that always suggests a valid
    action, and a user who closes the browser at the end. *)
Definition calm_world : world :=
  {| launch_ok := fun _ => true;
     page_url := fun _ => "about:blank";
     selector_visible := fun _ _ => false;
     captured := fun _ => Some sample_page;
     page_oracle := fun _ _ => OracleJson wait_suggestion;
     search_summary := fun _ _ => "Two listings found.";
     property_listings := fun _ => "";
     keep_open_answer := fun _ => "n";
     close_ok := fun _ => true |}.

Definition with_captured (w : world) (f : list event -> option page_state) : world :=
  {| launch_ok := launch_ok w;
     page_url := page_url w;
     selector_visible := selector_visible w;
     captured := f;
     page_oracle := page_oracle w;
     search_summary := search_summary w;
     property_listings := property_listings w;
     keep_open_answer := keep_open_answer w;
     close_ok := close_ok w |}.


Definition with_launch (w : world) (f : list event -> bool) : world :=
  {| launch_ok := f;
     page_url := page_url w;
     selector_visible := selector_visible w;
     captured := captured w;
     page_oracle := page_oracle w;
     search_summary := search_summary w;
     property_listings := property_listings w;
     keep_open_answer := keep_open_answer w;
     close_ok := close_ok w |}.


(** The page can never be captured. *)
Definition blind_world : world := with_captured calm_world (fun _ => None).

Definition is_capture (e : event) : bool :=
  match e with EvCapture => true | _ => false end.


(** The browser cannot be launched. *)
Definition no_browser_world : world := with_launch calm_world (fun _ => false).


Definition ready_session : session :=
  {| is_initialized := true; trace := []; executions := 0 |}.

Definition wait_action : action :=
  <["action_type" := VStr "wait"]>
    (<["duration" := VInt 1]>
      (<["description" := VStr "Wait for the page"]> ∅)).

Definition hover_action : action :=
  <["action_type" := VStr "hover"]> (<["description" := VStr "Hover over the menu"]> ∅).


(** The request of the specification's example. *)
Definition rental_request : string :=
  "I'll search for rental apartments in New York under $3000".






(** A log that holds actions of the given kinds and nothing else. *)
Definition log_of_kinds (kinds : list string) : list action :=
  map (fun k => <["action_type" := VStr k]> (∅ : action)) kinds.

(** The state of the loop after [wait_action] was executed as first action. *)
Definition first_step : Agent.loop_state :=
  {| Agent.results := ["Waited for 1 seconds"];
     Agent.executed_actions := [wait_action];
     Agent.action_count := 1 |}.

(** The page can be captured twice, and never again. *)
Definition two_glance_world : world :=
  with_captured calm_world
    (fun history =>
       if Nat.ltb (length (List.filter is_capture history)) 2 then Some sample_page else None).






Definition search_suggestion : gmap string pyval :=
  <["action_type" := VStr "search"]> (<["query" := VStr "rentals in Boston"]> ∅).


(** A response that asks for a search on Zillow and for two commands, one
    of them empty. *)
Definition zillow_search : gmap string Plan.json :=
  <["action_type" := Plan.JStr "search"]>
    (<["query" := Plan.JStr "Zillow rentals in Boston"]> ∅).

Definition zillow_response : gmap string Plan.json :=
  <["browser_action" := Plan.JDict zillow_search]>
    (<["terminal_commands" := Plan.JList [Plan.JStr "ls"; Plan.JStr ""; Plan.JInt 5]]> ∅).

Definition web_command : Plan.json :=
  Plan.JDict (<["type" := Plan.JStr "web"]>
               (<["actions" := Plan.JList [Plan.JDict zillow_search; Plan.JNull]]> ∅)).

End Samples.

(** ** The vocabulary of the statements *)

Import Browser Heuristic Agent Samples.

(** The action carries the kind [k]: [action.get('action_type') == k]. *)
Definition kind_is (k : string) (a : action) : Prop :=
  a !! "action_type" = Some (VStr k).

(** the same as a test *)
Definition has_kind (k : string) (a : action) : bool :=
  Py.eq_str (Py.get a "action_type") k.

(** how many actions of kind [k] a log holds *)
Definition occurrences (k : string) (log : list action) : nat :=
  length (List.filter (has_kind k) log).

(** No click among the last three entries of the log. *)
Definition no_click_in_last_three (log : list action) : Prop :=
  forall i a, length log <= i + 3 -> log !! i = Some a -> ~ kind_is "click" a.

(** Runs the plumbing of the session monad, leaving the answers of the
    world and the tests on the action in place. *)
Ltac run_session :=
  cbv beta iota zeta delta
    [bind ret raise try_except emit get_trace get_initialized set_initialized
     count_execution ensure_initialized initialize _take_screenshot
     navigate click click_element_by_text fill_input scroll search
     capture_page_state current_page_url
     is_initialized trace executions negb fst snd].


(** A method that leaves the count of executed actions alone. *)
Definition keeps_count {A} (m : M A) : Prop :=
  forall s, executions (snd (m s)) = executions s.


(** The count of executed actions of the agent's executor, if it has one. *)
Definition executions_of (executor : option session) : nat :=
  match executor with Some s => executions s | None => 0 end.


(** The console line of the loop on a failed capture. *)
Definition capture_failed_line : string :=
  "[bold red]Error capturing page state. Stopping execution.[/bold red]".

(** The session lives on: its history is only appended to, and a running
    browser keeps running. *)
Definition session_extends (s s' : session) : Prop :=
  trace s `prefix_of` trace s'
  /\ (is_initialized s = true -> is_initialized s' = true).

(** A method under which every session lives on. *)
Definition steady {A} (m : M A) : Prop :=
  forall s, session_extends s (snd (m s)).


(** The console line of [_execute_browser_actions] on the step limit. *)
Definition limit_line : string :=
  "[bold yellow]Reached maximum number of actions. Stopping execution.[/bold yellow]".

(** What the loop added to its log: as many actions as results, as many as
    the step counter grew by. *)
Definition log_grew (st st' : loop_state) : Prop :=
  exists new_actions new_results,
    executed_actions st' = (executed_actions st ++ new_actions)%list
    /\ results st' = (results st ++ new_results)%list
    /\ length new_actions = length new_results
    /\ action_count st' = action_count st + length new_actions.

(** Every character of the string passes the test. *)
Fixpoint all_chars (test : ascii -> bool) (s : string) : bool :=
  match s with
  | "" => true
  | String c s' => test c && all_chars test s'
  end.

(** The characters that [re.sub(r'[^\w\s$%]', '', s)] keeps. *)
Definition kept_char (c : ascii) : bool :=
  Py.is_word c || Py.is_space c || Nat.eqb (Py.code c) 36 || Nat.eqb (Py.code c) 37.

Definition not_capital (c : ascii) : bool := negb (Py.is_upper c).

(** A step of the cleaning that only deletes characters, or puts a blank
    for a run of blanks: it does not lengthen the text, and it keeps every
    property of characters that the blank has. *)
Definition thins (f : string -> string) : Prop :=
  forall text,
    String.length (f text) <= String.length text
    /\ forall test, test " "%char = true -> all_chars test text = true ->
                    all_chars test (f text) = true.

(** The binomial coefficients, by the rule of Pascal's triangle. *)
Fixpoint pascal (n k : nat) : nat :=
  match n, k with
  | _, 0 => 1
  | 0, S _ => 0
  | S n', S k' => pascal n' k' + pascal n' (S k')
  end.

(** The strings that a response gives under ["terminal_commands"]. *)
Definition stated_terminal_commands (response : gmap string Plan.json) : list string :=
  match response !! "terminal_commands" with
  | Some (Plan.JList items) => omap Plan.as_str items
  | Some (Plan.JStr c) => [c]
  | _ => []
  end.

(** * Properties *)

(** ** The goal-completion heuristic *)

Section HeuristicFacts.

Lemma eq_str_true v s : Py.eq_str v s = true <-> v = VStr s.
Proof.
  destruct v; simpl; try (split; [discriminate | congruence]).
  rewrite String.eqb_eq. split; congruence.
Qed.

Lemma has_kind_true k a : has_kind k a = true <-> kind_is k a.
Proof.
  unfold has_kind, kind_is, Py.get. rewrite eq_str_true.
  destruct (a !! "action_type") as [v|]; split; congruence.
Qed.

Lemma has_kind_false k a : has_kind k a = false <-> ~ kind_is k a.
Proof.
  rewrite <- has_kind_true. destruct (has_kind k a); split; congruence.
Qed.

Lemma count_action_types k (log : list action) :
  Py.count k (map (fun a => Py.get a "action_type") log) = occurrences k log.
Proof.
  unfold occurrences. induction log as [|a log IH]; simpl; [reflexivity|].
  rewrite IH. unfold has_kind at 2. destruct (Py.eq_str _ k); reflexivity.
Qed.

Lemma map_lookup {A B} (f : A -> B) (l : list A) i :
  map f l !! i = option_map f (l !! i).
Proof.
  revert i. induction l as [|x l IH]; intros [|i]; simpl; auto.
Qed.

Lemma item_last_action_types (log : list action) a :
  last log = Some a ->
  Py.item_last (map (fun a => Py.get a "action_type") log) = Py.get a "action_type".
Proof.
  intros Hlast. unfold Py.item_last.
  rewrite nth_lookup, map_lookup, length_map.
  rewrite last_lookup in Hlast.
  replace (length log - 1) with (Nat.pred (length log)) by lia.
  rewrite Hlast. reflexivity.
Qed.

Lemma mem_false k (l : list pyval) :
  Py.mem k l = false <-> forall i v, l !! i = Some v -> Py.eq_str v k = false.
Proof.
  induction l as [|x l IH]; simpl.
  - split; [intros _ i v H; destruct i; discriminate | reflexivity].
  - rewrite orb_false_iff, IH. split.
    + intros [Hx Hl] [|i] v H; simpl in H; [congruence | eauto].
    + intros H. split; [apply (H 0 x); reflexivity | intros i v Hi; apply (H (S i) v Hi)].
Qed.

Lemma mem_slice_last3 (log : list action) :
  Py.mem "click" (Py.slice_last3 (map (fun a => Py.get a "action_type") log)) = false
  <-> no_click_in_last_three log.
Proof.
  unfold Py.slice_last3, no_click_in_last_three.
  rewrite mem_false, length_map. split.
  - intros H i a Hi Ha. apply has_kind_false. unfold has_kind.
    apply (H (i - (length log - 3))).
    rewrite lookup_drop, map_lookup.
    replace (length log - 3 + (i - (length log - 3))) with i by lia.
    rewrite Ha. reflexivity.
  - intros H i v Hv. rewrite lookup_drop, map_lookup in Hv.
    destruct (log !! (length log - 3 + i)) as [a|] eqn:Ha; [|discriminate].
    injection Hv as <-. apply has_kind_false.
    apply (H (length log - 3 + i) a); [lia | exact Ha].
Qed.

Lemma last_action_type k (log : list action) :
  0 < length log ->
  Py.eq_str (Py.item_last (map (fun a => Py.get a "action_type") log)) k = true
  <-> exists a, last log = Some a /\ kind_is k a.
Proof.
  intros Hlen. destruct (last log) as [a|] eqn:Hlast.
  - rewrite (item_last_action_types _ _ Hlast). fold (has_kind k a).
    rewrite has_kind_true. split; [eauto|].
    intros (b & Hb & Hk). congruence.
  - apply last_None in Hlast. subst log. simpl in Hlen. lia.
Qed.

(** The two nested [if]s of the source as one boolean formula. *)
Lemma check_goal_completion_bool (log : list action) (goal : string) :
  _check_goal_completion log goal =
  let action_types := map (fun a => Py.get a "action_type") log in
  Nat.leb 5 (length log)
  && ((Nat.leb 2 (Py.count "click" action_types)
       && Py.eq_str (Py.item_last action_types) "capture_state")
      || (Nat.leb 3 (Py.count "scroll" action_types)
          && negb (Py.mem "click" (Py.slice_last3 action_types)))).
Proof.
  unfold _check_goal_completion. cbv zeta.
  destruct (Nat.leb 5 _), (Nat.leb 2 _), (Py.eq_str _ _), (Nat.leb 3 _), (Py.mem _ _);
    reflexivity.
Qed.

End HeuristicFacts.

(** C3: the heuristic answers true exactly when at least five actions were
    executed and either two or more of them are clicks and the last one is a
    capture_state, or three or more are scrolls and none of the last three is
    a click; with fewer than five actions the answer is false. *)
Theorem check_goal_completion_exact (log : list action) (goal : string) :
  (_check_goal_completion log goal = true <->
     5 <= length log /\
     ((2 <= occurrences "click" log /\
       exists a, last log = Some a /\ kind_is "capture_state" a)
      \/ (3 <= occurrences "scroll" log /\ no_click_in_last_three log)))
  /\ (length log < 5 -> _check_goal_completion log goal = false).
Proof.
  rewrite check_goal_completion_bool. split.
  - rewrite andb_true_iff, orb_true_iff, !andb_true_iff, !Nat.leb_le, negb_true_iff.
    rewrite !count_action_types, mem_slice_last3.
    split; intros [Hlen Hcases]; (split; [exact Hlen|]);
      pose proof (last_action_type "capture_state" log ltac:(lia)) as Hlast;
      destruct Hcases as [[Hc Hk]|Hs]; [left|right|left|right]; try exact Hs;
      (split; [exact Hc|]); apply Hlast; exact Hk.
  - intros Hlen. apply andb_false_iff. left. apply Nat.leb_gt. exact Hlen.
Qed.

(** C10: the heuristic does not read the goal: two goal texts give the same
    answer on the same log, and the answer is a function of the
    ['action_type'] entries alone. *)
Theorem check_goal_completion_ignores_goal (log log' : list action) (g1 g2 : string) :
  _check_goal_completion log g1 = _check_goal_completion log g2
  /\ (map (fun a => a !! "action_type") log = map (fun a => a !! "action_type") log' ->
      _check_goal_completion log g1 = _check_goal_completion log' g2).
Proof.
  split; [reflexivity|].
  intros Heq. unfold _check_goal_completion.
  assert (Hlen : length log = length log').
  { rewrite <- (length_map (fun a : action => a !! "action_type") log), Heq.
    apply length_map. }
  assert (Htypes : map (fun a => Py.get a "action_type") log
                   = map (fun a => Py.get a "action_type") log').
  { clear Hlen. revert log' Heq.
    induction log as [|a log IH]; intros [|b log'] Heq; try discriminate Heq.
    - reflexivity.
    - change (Py.get a "action_type" :: map (fun a => Py.get a "action_type") log
              = Py.get b "action_type" :: map (fun a => Py.get a "action_type") log').
      injection Heq as Hab Hrest. unfold Py.get at 1 2. rewrite Hab.
      f_equal. auto. }
  rewrite Hlen, Htypes. reflexivity.
Qed.

(** The three sequences of the specification: two clicks and a final
    capture_state among five actions, three closing scrolls among five, and a
    click and a scroll alone. *)
Lemma check_goal_completion_exact_witness :
  _check_goal_completion
    (log_of_kinds ["navigate"; "wait"; "click"; "click"; "capture_state"]) "goal" = true
  /\ _check_goal_completion
    (log_of_kinds ["navigate"; "wait"; "scroll"; "scroll"; "scroll"]) "goal" = true
  /\ _check_goal_completion (log_of_kinds ["click"; "scroll"]) "goal" = false.
Proof.
  split; [|split].
  - apply (proj1 (check_goal_completion_exact _ "goal")).
    split; [vm_compute; lia|]. left. split; [vm_compute; lia|].
    eexists. split; reflexivity.
  - apply (proj1 (check_goal_completion_exact _ "goal")).
    split; [vm_compute; lia|]. right. split; [vm_compute; lia|].
    apply (proj1 (mem_slice_last3 _)). vm_compute. reflexivity.
  - apply (proj2 (check_goal_completion_exact _ "goal")). vm_compute. lia.
Defined.

(** Another goal and further entries in the actions leave the answer as it is. *)
Lemma check_goal_completion_ignores_goal_witness :
  _check_goal_completion
    (log_of_kinds ["navigate"; "wait"; "click"; "click"; "capture_state"])
    "find rental apartments"
  = _check_goal_completion
    (map (fun a : action => <["description" := VStr "step"]> a)
       (log_of_kinds ["navigate"; "wait"; "click"; "click"; "capture_state"]))
    "order a pizza".
Proof.
  apply (proj2 (check_goal_completion_ignores_goal _ _ _ _)). reflexivity.
Defined.

(** ** The search-query sanitizer *)



(** C5, as stated, fails: the sanitized text is in lower case, so it holds
    no "New York". *)
Lemma clean_search_query_drops_capitals :
  ~ (let cleaned := Query._clean_search_query rental_request in
     Py.contains "rental apartments" cleaned = true
     /\ Py.contains "New York" cleaned = true
     /\ Py.contains "$3000" cleaned = true
     /\ Py.contains "I'll" cleaned = false
     /\ Py.contains "search for" cleaned = false).
Proof.
  intros (_ & Hcity & _). vm_compute in Hcity. discriminate.
Qed.

(** C5, amended: for the rental request the sanitizer returns
    "rental apartments in new york under $3000", which holds
    "rental apartments", "new york" (in lower case) and "$3000", and neither
    "I'll" nor "search for". *)
Theorem clean_search_query_rental_request :
  let cleaned := Query._clean_search_query rental_request in
  cleaned = "rental apartments in new york under $3000"
  /\ Py.contains "rental apartments" cleaned = true
  /\ Py.contains "new york" cleaned = true
  /\ Py.contains "$3000" cleaned = true
  /\ Py.contains "I'll" cleaned = false
  /\ Py.contains "search for" cleaned = false.
Proof.
  vm_compute. repeat split.
Qed.

(** ** The executor *)

Section ExecutorFacts.

Variable w : world.

(** C2: when the session is not initialized and the browser cannot be
    launched, [execute_action] returns "Failed to initialize browser." for
    every action dictionary, whatever its kind, and raises nothing. *)
Theorem execute_action_reports_init_failure (a : action) (s : session) :
  is_initialized s = false ->
  launch_ok w (trace s) = false ->
  execute_action w a s =
    (Ret "Failed to initialize browser.",
     {| is_initialized := false;
        trace := trace s ++ [EvLaunch];
        executions := S (executions s) |}).
Proof.
  destruct s as [ready history n]. simpl. intros -> Hlaunch.
  unfold execute_action. run_session.
  rewrite Hlaunch. reflexivity.
Qed.




End ExecutorFacts.

(** No browser: an action of unknown kind, on a fresh executor. *)
Lemma execute_action_reports_init_failure_witness :
  execute_action no_browser_world hover_action new_session =
    (Ret "Failed to initialize browser.",
     {| is_initialized := false; trace := [EvLaunch]; executions := 1 |}).
Proof.
  apply (execute_action_reports_init_failure no_browser_world hover_action new_session);
    reflexivity.
Defined.


(** ** The oracle adapter *)

Section OracleFacts.

Variable w : world.


Lemma convert_action_type (d : gmap string pyval) :
  Oracle.convert d !! "action_type" = Some (Py.get_or d "action_type" (VStr "scroll")).
Proof.
  unfold Oracle.convert.
  repeat match goal with |- context [if ?b then _ else _] => destruct b end;
    rewrite ?lookup_insert_ne by discriminate; apply lookup_insert_eq.
Qed.






End OracleFacts.



(** ** The adaptive loop *)

Section CountFacts.

Variable w : world.

Lemma keeps_ret {A} (a : A) : keeps_count (ret a).
Proof. intros s. reflexivity. Qed.

Lemma keeps_raise {A} (e : exn) : keeps_count (@raise A e).
Proof. intros s. reflexivity. Qed.

Lemma keeps_bind {A B} (m : M A) (k : A -> M B) :
  keeps_count m -> (forall a, keeps_count (k a)) -> keeps_count (bind m k).
Proof.
  intros Hm Hk s. unfold bind. specialize (Hm s).
  destruct (m s) as [[a|e] s1]; simpl in *; [|exact Hm].
  rewrite (Hk a s1). exact Hm.
Qed.

Lemma keeps_try_except {A} (m : M A) (handler : exn -> M A) :
  keeps_count m -> (forall e, keeps_count (handler e)) -> keeps_count (try_except m handler).
Proof.
  intros Hm Hh s. unfold try_except. specialize (Hm s).
  destruct (m s) as [[a|e] s1]; simpl in *; [exact Hm|].
  rewrite (Hh e s1). exact Hm.
Qed.

Lemma keeps_emit e : keeps_count (emit e).
Proof. intros s. reflexivity. Qed.

Lemma keeps_get_trace : keeps_count get_trace.
Proof. intros s. reflexivity. Qed.

Lemma keeps_get_initialized : keeps_count get_initialized.
Proof. intros s. reflexivity. Qed.

Lemma keeps_set_initialized b : keeps_count (set_initialized b).
Proof. intros s. reflexivity. Qed.

Ltac keeps :=
  repeat first
    [ apply keeps_ret | apply keeps_raise | apply keeps_emit | apply keeps_get_trace
    | apply keeps_get_initialized | apply keeps_set_initialized
    | assumption
    | apply keeps_bind; [|intros ?]
    | apply keeps_try_except; [|intros ?]
    | match goal with
      | |- keeps_count (if ?b then _ else _) => destruct b
      | |- keeps_count (match ?x with _ => _ end) => destruct x
      end ].


















Lemma keeps_close : keeps_count (close w).
Proof. unfold close. keeps. Qed.

End CountFacts.

Section LoopFacts.

Variable w : world.

Lemma adaptive_loop_unfold fuel goal st :
  adaptive_loop w fuel goal st =
  if negb (Nat.ltb (action_count st) max_actions) then ret (StepLimit, st)
  else
    match fuel with
    | O => ret (OutOfFuel, st)
    | S fuel' =>
        let* page_state := capture_page_state w in
        match page_state with
        | None =>
            emit (EvConsole "[bold red]Error capturing page state. Stopping execution.[/bold red]") ;;
            ret (CaptureFailed, st)
        | Some _ =>
            let* next_action := Oracle.analyze_page_for_next_action w goal in
            match usable next_action with
            | None =>
                emit (EvConsole "[bold yellow]No further actions suggested. Stopping execution.[/bold yellow]") ;;
                ret (NoSuggestion, st)
            | Some next_action =>
                if _check_goal_completion (executed_actions st) goal then
                  emit (EvConsole "[bold green]Goal appears to be completed. Stopping execution.[/bold green]") ;;
                  ret (GoalReached, st)
                else
                  _display_action_info (action_count st + 1)
                    (Py.get_or next_action "action_type" (VStr "")) next_action ;;
                  let* result := execute_action w next_action in
                  sleep (VInt 1) ;;
                  adaptive_loop w fuel' goal
                    {| results := results st ++ [result];
                       executed_actions := executed_actions st ++ [next_action];
                       action_count := action_count st + 1 |}
            end
        end
    end.
Proof. destruct fuel; reflexivity. Qed.


Lemma bind_ext {A B} (m : M A) (k1 k2 : A -> M B) (s : session) :
  (forall a s', k1 a s' = k2 a s') -> bind m k1 s = bind m k2 s.
Proof.
  intros Hk. unfold bind. destruct (m s) as [[a|e] s']; [apply Hk | reflexivity].
Qed.


End LoopFacts.

Section RunFacts.

Variable w : world.








End RunFacts.


(** The always-suggesting oracle drives the loop to the step limit, and no
    further: twenty actions are executed. *)
Example always_suggesting_oracle_stops_at_limit :
  executions_of (snd (_execute_browser_actions calm_world None [wait_action] "goal")) = 20.
Proof. vm_compute. reflexivity. Qed.


Section UnknownKind.

Variable w : world.

Lemma length_lower (s : string) : String.length (Py.lower s) = String.length s.
Proof. induction s as [|c s IH]; simpl; [reflexivity | rewrite IH; reflexivity]. Qed.





End UnknownKind.



(** ** The final report *)

Section ReportFacts.

Variable w : world.


End ReportFacts.



(** * Further properties *)

(** ** The session during [execute_action] *)

Section SteadyFacts.

Variable w : world.

Lemma session_extends_refl s : session_extends s s.
Proof. split; [reflexivity | auto]. Qed.

Lemma session_extends_trans s1 s2 s3 :
  session_extends s1 s2 -> session_extends s2 s3 -> session_extends s1 s3.
Proof. intros [Hp1 Hi1] [Hp2 Hi2]. split; [etransitivity; eassumption | auto]. Qed.

Lemma steady_ret {A} (a : A) : steady (ret a).
Proof. intros s. apply session_extends_refl. Qed.

Lemma steady_raise {A} (e : exn) : steady (@raise A e).
Proof. intros s. apply session_extends_refl. Qed.

Lemma steady_bind {A B} (m : M A) (k : A -> M B) :
  steady m -> (forall a, steady (k a)) -> steady (bind m k).
Proof.
  intros Hm Hk s. unfold bind. specialize (Hm s).
  destruct (m s) as [[a|e] s1]; cbn [snd] in *; [|exact Hm].
  eapply session_extends_trans; [exact Hm | apply Hk].
Qed.

Lemma steady_try_except {A} (m : M A) (handler : exn -> M A) :
  steady m -> (forall e, steady (handler e)) -> steady (try_except m handler).
Proof.
  intros Hm Hh s. unfold try_except. specialize (Hm s).
  destruct (m s) as [[a|e] s1]; cbn [snd] in *; [exact Hm|].
  eapply session_extends_trans; [exact Hm | apply Hh].
Qed.

Lemma steady_emit e : steady (emit e).
Proof. intros s. split; cbn; [apply prefix_app_r; reflexivity | auto]. Qed.

Lemma steady_get_trace : steady get_trace.
Proof. intros s. apply session_extends_refl. Qed.

Lemma steady_get_initialized : steady get_initialized.
Proof. intros s. apply session_extends_refl. Qed.

Lemma steady_set_initialized : steady (set_initialized true).
Proof. intros s. split; cbn; [reflexivity | auto]. Qed.

Lemma steady_count_execution : steady count_execution.
Proof. intros s. split; cbn; [reflexivity | auto]. Qed.

Ltac steady_step :=
  first
    [ apply steady_ret | apply steady_raise | apply steady_emit | apply steady_get_trace
    | apply steady_get_initialized | apply steady_set_initialized
    | apply steady_count_execution
    | assumption
    | apply steady_bind; [|intros ?]
    | apply steady_try_except; [|intros ?]
    | match goal with
      | |- steady (if ?b then _ else _) => destruct b
      | |- steady (match ?x with _ => _ end) => destruct x
      end ].

Lemma steady_initialize : steady (initialize w).
Proof. unfold initialize. repeat steady_step. Qed.

Lemma steady_ensure_initialized : steady (ensure_initialized w).
Proof. pose proof steady_initialize. unfold ensure_initialized. repeat steady_step. Qed.

Lemma steady_take_screenshot name : steady (_take_screenshot name).
Proof. unfold _take_screenshot. repeat steady_step. Qed.

Lemma steady_navigate url : steady (navigate w url).
Proof. pose proof steady_ensure_initialized. unfold navigate. repeat steady_step. Qed.

Lemma steady_click selector selector_type : steady (click w selector selector_type).
Proof. pose proof steady_ensure_initialized. unfold click. repeat steady_step. Qed.

Lemma steady_click_element_by_text text : steady (click_element_by_text w text).
Proof. pose proof steady_ensure_initialized. unfold click_element_by_text. repeat steady_step. Qed.

Lemma steady_fill_input selector value selector_type :
  steady (fill_input w selector value selector_type).
Proof. pose proof steady_ensure_initialized. unfold fill_input. repeat steady_step. Qed.

Lemma steady_scroll direction distance : steady (scroll w direction distance).
Proof. pose proof steady_ensure_initialized. unfold scroll. repeat steady_step. Qed.

Lemma steady_search query : steady (search w query).
Proof. pose proof steady_ensure_initialized. unfold search. repeat steady_step. Qed.

Lemma steady_capture_page_state : steady (capture_page_state w).
Proof. pose proof steady_ensure_initialized. unfold capture_page_state. repeat steady_step. Qed.

Lemma steady_sleep duration : steady (sleep duration).
Proof. unfold sleep. repeat steady_step. Qed.

Lemma steady_check_container v : steady (check_container v).
Proof. unfold check_container. repeat steady_step. Qed.

Lemma steady_fill_first_search_box selectors value :
  steady (fill_first_search_box w selectors value).
Proof.
  induction selectors as [|selector rest IH]; simpl.
  - repeat steady_step.
  - pose proof (steady_fill_input (VStr selector) value (VStr "css")).
    pose proof (steady_take_screenshot "input_search"). repeat steady_step.
Qed.

Lemma steady_dispatch action_type (a : action) : steady (dispatch w action_type a).
Proof.
  unfold dispatch, clean_query_of, subscript, current_page_url.
  repeat match goal with
  | |- steady (if ?b then _ else _) => destruct b
  | |- steady (match ?x with _ => _ end) => destruct x
  | |- steady (bind _ _) => apply steady_bind; [|intros ?]
  | |- steady (ret _) => apply steady_ret
  | |- steady (raise _) => apply steady_raise
  | |- steady get_trace => apply steady_get_trace
  | |- steady (check_container _) => apply steady_check_container
  | |- steady (navigate _ _) => apply steady_navigate
  | |- steady (_take_screenshot _) => apply steady_take_screenshot
  | |- steady (click _ _ _) => apply steady_click
  | |- steady (click_element_by_text _ _) => apply steady_click_element_by_text
  | |- steady (fill_first_search_box _ _ _) => apply steady_fill_first_search_box
  | |- steady (fill_input _ _ _ _) => apply steady_fill_input
  | |- steady (emit _) => apply steady_emit
  | |- steady (scroll _ _ _) => apply steady_scroll
  | |- steady (sleep _) => apply steady_sleep
  | |- steady (search _ _) => apply steady_search
  | |- steady (capture_page_state _) => apply steady_capture_page_state
  end.
Qed.

Lemma steady_execute_action (a : action) : steady (execute_action w a).
Proof.
  pose proof steady_ensure_initialized. unfold execute_action, action_type_of.
  apply steady_bind; [apply steady_count_execution|]. intros _.
  apply steady_bind; [assumption|]. intros ready. destruct ready; cbn [negb]; [|apply steady_ret].
  apply steady_bind.
  - destruct (Py.get_or a "action_type" (VStr "")); first [apply steady_ret | apply steady_raise].
  - intros action_type. apply steady_try_except; [|intros e; apply steady_ret].
    apply steady_bind; [apply steady_take_screenshot|]. intros _. apply steady_dispatch.
Qed.

Lemma steady_analyze goal : steady (Oracle.analyze_page_for_next_action w goal).
Proof.
  pose proof steady_ensure_initialized. pose proof steady_capture_page_state.
  unfold Oracle.analyze_page_for_next_action.
  apply steady_bind; [assumption|]. intros ready. destruct ready; cbn [negb]; [|apply steady_ret].
  apply steady_try_except; [|intros e; apply steady_ret].
  apply steady_bind; [assumption|]. intros [page|]; [|apply steady_ret].
  apply steady_bind; [apply steady_get_trace|]. intros history.
  apply steady_bind; [apply steady_emit|]. intros _.
  destruct (_ && _); apply steady_ret.
Qed.

Lemma steady_display step action_type (a : action) :
  steady (_display_action_info step action_type a).
Proof.
  unfold _display_action_info. destruct (Py.eq_str _ _);
    [apply steady_check_container | apply steady_ret].
Qed.

Lemma steady_adaptive_loop fuel : forall goal st, steady (adaptive_loop w fuel goal st).
Proof.
  induction fuel as [|fuel IH]; intros goal st; rewrite adaptive_loop_unfold;
    destruct (negb _); try apply steady_ret.
  apply steady_bind; [apply steady_capture_page_state|]. intros [page|].
  2:{ apply steady_bind; [apply steady_emit | intros _; apply steady_ret]. }
  apply steady_bind; [apply steady_analyze|]. intros suggestion.
  destruct (usable suggestion) as [a|].
  2:{ apply steady_bind; [apply steady_emit | intros _; apply steady_ret]. }
  destruct (_check_goal_completion _ _).
  { apply steady_bind; [apply steady_emit | intros _; apply steady_ret]. }
  apply steady_bind; [apply steady_display|]. intros _.
  apply steady_bind; [apply steady_execute_action|]. intros result.
  apply steady_bind; [apply steady_sleep|]. intros _. apply IH.
Qed.

(** X1: while an action is executed and while the loop runs, the history of
    what was asked of the browser is only appended to, and a browser that
    runs keeps running: neither [execute_action], nor the page analysis, nor
    the adaptive loop closes or restarts the session. *)
Theorem session_lives_through_the_loop (a : action) (fuel : nat) (goal : string)
    (st : loop_state) :
  steady (execute_action w a)
  /\ steady (Oracle.analyze_page_for_next_action w goal)
  /\ steady (adaptive_loop w fuel goal st).
Proof.
  split; [apply steady_execute_action|].
  split; [apply steady_analyze | apply steady_adaptive_loop].
Qed.

End SteadyFacts.

(** ** More on [execute_action] *)

Section ExecutorEdges.

Variable w : world.


(** X3: the browser is launched on demand.  On a session that is not
    initialized, with a browser that can be launched, [execute_action] does
    what it does on the running session, after the launch. *)
Theorem execute_action_launches_on_demand (a : action) (s : session) :
  is_initialized s = false ->
  launch_ok w (trace s) = true ->
  execute_action w a s =
    execute_action w a
      {| is_initialized := true;
         trace := trace s ++ [EvLaunch];
         executions := executions s |}.
Proof.
  destruct s as [ready history n]. cbn [is_initialized trace executions].
  intros -> Hlaunch. unfold execute_action. run_session. rewrite Hlaunch. reflexivity.
Qed.

Lemma lower_char_idempotent (c : ascii) :
  Py.lower_char (Py.lower_char c) = Py.lower_char c.
Proof. destruct c as [[] [] [] [] [] [] [] []]; vm_compute; reflexivity. Qed.

Lemma lower_idempotent (text : string) : Py.lower (Py.lower text) = Py.lower text.
Proof.
  induction text as [|c text IH]; simpl; [reflexivity|].
  rewrite lower_char_idempotent, IH. reflexivity.
Qed.

(** The branches read the parameters of the action, never its kind. *)
Lemma dispatch_reads_parameters (kind : string) (a b : action) :
  (forall key, key <> "action_type" -> a !! key = b !! key) ->
  dispatch w kind a = dispatch w kind b.
Proof.
  intros Hsame. unfold dispatch, Py.get, Py.get_or.
  rewrite (Hsame "url"), (Hsame "selector"), (Hsame "text"), (Hsame "selector_type"),
    (Hsame "value"), (Hsame "direction"), (Hsame "distance"), (Hsame "duration"),
    (Hsame "website"), (Hsame "query") by discriminate.
  reflexivity.
Qed.

(** X4: kinds are matched without regard to case: an action whose kind is
    written in capitals is executed exactly as the action with the kind in
    lower case. *)
Theorem execute_action_ignores_case (a : action) (kind : string) (s : session) :
  execute_action w (<["action_type" := VStr kind]> a) s
  = execute_action w (<["action_type" := VStr (Py.lower kind)]> a) s.
Proof.
  assert (Hsame : dispatch w (Py.lower kind) (<["action_type" := VStr kind]> a)
                  = dispatch w (Py.lower kind) (<["action_type" := VStr (Py.lower kind)]> a)).
  { apply dispatch_reads_parameters. intros key Hkey.
    rewrite !lookup_insert_ne by congruence. reflexivity. }
  unfold execute_action, action_type_of, Py.get_or.
  rewrite !lookup_insert_eq, lower_idempotent.
  apply bind_ext. intros _ s1. apply bind_ext. intros ready s2.
  destruct ready; cbn [negb]; [|reflexivity].
  unfold bind at 1 3, ret at 1 3. unfold try_except, bind. rewrite Hsame. reflexivity.
Qed.




End ExecutorEdges.

(** ** The oracle's suggestions, executed *)

Section SuggestionFacts.

Variable w : world.




Lemma execute_converted (d : gmap string pyval) (kind : string) (s : session) :
  is_initialized s = true ->
  d !! "action_type" = Some (VStr kind) ->
  execute_action w (Oracle.convert d) s =
    try_except (dispatch w (Py.lower kind) (Oracle.convert d))
      (fun e => ret ("Error executing " +:+ Py.lower kind +:+ " action: " +:+ exn_str e))
      {| is_initialized := true;
         trace := trace s ++ [EvScreenshot ("before_" +:+ Py.lower kind)];
         executions := S (executions s) |}.
Proof.
  intros Hready Hkind. destruct s as [ready history n].
  cbn [is_initialized trace executions] in *. subst ready.
  unfold execute_action, action_type_of. unfold Py.get_or at 1.
  rewrite convert_action_type. unfold Py.get_or. rewrite Hkind. reflexivity.
Qed.



(** X10: the conversion forwards no query and no website.  A search
    suggested by the oracle therefore reaches the executor without its
    query: the search box is filled with the empty text, on the current page
    when that is a search engine, and on Google otherwise. *)
Theorem suggested_search_loses_its_query (d : gmap string pyval) (s : session) :
  Oracle.convert d !! "query" = None /\ Oracle.convert d !! "website" = None
  /\ (is_initialized s = true ->
      d !! "action_type" = Some (VStr "search") ->
      let before := (trace s ++ [EvScreenshot "before_search"])%list in
      execute_action w (Oracle.convert d) s =
        if on_search_engine (page_url w before) then
          (Ret "Searched for '' on current page",
           {| is_initialized := true;
              trace := (before ++ [EvSearch ""; EvScreenshot "search_current"])%list;
              executions := S (executions s) |})
        else
          (Ret "Searched for '' on Google",
           {| is_initialized := true;
              trace := (before ++ [EvNavigate (VStr "https://www.google.com"); EvSearch "";
                                   EvScreenshot "search_google"])%list;
              executions := S (executions s) |})).
Proof.
  assert (Hquery : forall key,
            key <> "action_type" -> key <> "description" -> key <> "selector" ->
            key <> "selector_type" -> key <> "text" -> key <> "value" ->
            key <> "direction" -> key <> "distance" -> key <> "duration" -> key <> "url" ->
            Oracle.convert d !! key = None).
  { intros key. intros. unfold Oracle.convert.
    repeat match goal with |- context [if ?b then _ else _] => destruct b end;
      rewrite ?lookup_insert_ne by congruence; apply lookup_empty. }
  split; [apply Hquery; discriminate|]. split; [apply Hquery; discriminate|].
  intros Hready Hkind before.
  destruct s as [ready history n]. cbn [is_initialized trace executions] in *. subst ready.
  rewrite (execute_converted d "search"
             {| is_initialized := true; trace := history; executions := n |}
             eq_refl Hkind).
  change (Py.lower "search") with "search".
  change ("before_" +:+ "search") with "before_search".
  cbn [is_initialized trace executions].
  unfold dispatch. cbn [String.eqb Ascii.eqb Bool.eqb andb].
  unfold Py.get_or. rewrite !Hquery by discriminate.
  unfold clean_query_of. change (Query._clean_search_query "") with "".
  cbn [website_given]. run_session. subst before.
  destruct (on_search_engine (page_url w (history ++ [EvScreenshot "before_search"])));
    run_session; rewrite <- ?app_assoc; reflexivity.
Qed.


End SuggestionFacts.

(** ** More on the adaptive loop *)

Section LoopLog.

Variable w : world.

Lemma log_grew_refl st : log_grew st st.
Proof.
  exists [], []. rewrite !app_nil_r. repeat split; simpl; lia.
Qed.

Lemma adaptive_loop_log fuel : forall goal st s cause st' s',
  adaptive_loop w fuel goal st s = (Ret (cause, st'), s') ->
  log_grew st st'
  /\ (cause = StepLimit <-> max_actions <= action_count st')
  /\ (cause = GoalReached -> _check_goal_completion (executed_actions st') goal = true)
  /\ (action_count st <= max_actions -> action_count st' <= max_actions).
Proof.
  assert (Hstay : forall st cause goal, cause <> StepLimit ->
            (cause = GoalReached -> _check_goal_completion (executed_actions st) goal = true) ->
            action_count st < max_actions ->
            log_grew st st
            /\ (cause = StepLimit <-> max_actions <= action_count st)
            /\ (cause = GoalReached -> _check_goal_completion (executed_actions st) goal = true)
            /\ (action_count st <= max_actions -> action_count st <= max_actions)).
  { intros st cause goal Hcause Hgoal Hlt. split; [apply log_grew_refl|].
    split; [split; [contradiction | lia]|]. split; [exact Hgoal | trivial]. }
  induction fuel as [|fuel IH]; intros goal st s cause st' s';
    rewrite adaptive_loop_unfold;
    destruct (Nat.ltb_spec (action_count st) max_actions) as [Hlt|Hge]; cbn [negb].
  - intros H; injection H as <- <- <-. apply Hstay; [discriminate | discriminate | exact Hlt].
  - intros H; injection H as <- <- <-. split; [apply log_grew_refl|].
    split; [split; [intros _; exact Hge | reflexivity]|]. split; [discriminate | trivial].
  - unfold bind at 1.
    destruct (capture_page_state w s) as [[[page|]|e] s1]; [| |discriminate].
    2:{ cbn. intros H; injection H as <- <- <-.
        apply Hstay; [discriminate | discriminate | exact Hlt]. }
    unfold bind at 1.
    destruct (Oracle.analyze_page_for_next_action w goal s1) as [[suggestion|e] s2];
      [|discriminate].
    destruct (usable suggestion) as [a|].
    2:{ cbn. intros H; injection H as <- <- <-.
        apply Hstay; [discriminate | discriminate | exact Hlt]. }
    destruct (_check_goal_completion (executed_actions st) goal) eqn:Hcheck.
    { cbn. intros H; injection H as <- <- <-.
      apply Hstay; [discriminate | intros _; exact Hcheck | exact Hlt]. }
    unfold bind at 1.
    destruct (_display_action_info _ _ a s2) as [[[]|e] s3]; [|discriminate].
    unfold bind at 1.
    destruct (execute_action w a s3) as [[result|e] s4]; [|discriminate].
    unfold bind at 1.
    destruct (sleep (VInt 1) s4) as [[[]|e] s5]; [|discriminate].
    intros Hrun. apply IH in Hrun. unfold log_grew in Hrun.
    cbn [executed_actions results action_count] in Hrun.
    destruct Hrun as ((new_actions & new_results & Hactions & Hresults & Hlen & Hcount)
                      & Hlimit & Hgoal & Hmax).
    split; [|split; [exact Hlimit | split; [exact Hgoal | intros _; apply Hmax; lia]]].
    exists (a :: new_actions), (result :: new_results).
    rewrite Hactions, Hresults, <- !app_assoc. repeat split; simpl; lia.
  - intros H; injection H as <- <- <-. split; [apply log_grew_refl|].
    split; [split; [intros _; exact Hge | reflexivity]|]. split; [discriminate | trivial].
Qed.

(** X12: the loop keeps its log in step.  Whatever the loop returns, the
    executed actions and the results it had are still there, in front; it
    added as many actions as results; and the step counter grew by that
    number.  A log that pairs each action with a result when the loop is
    entered, as the one of [_execute_browser_actions] does, still does so
    when the loop is left. *)
Theorem loop_log_stays_paired (fuel : nat) (goal : string) (st : loop_state) (s : session)
    (cause : stop_cause) (st' : loop_state) (s' : session) :
  adaptive_loop w fuel goal st s = (Ret (cause, st'), s') ->
  log_grew st st'
  /\ (length (results st) = length (executed_actions st) ->
      length (results st') = length (executed_actions st'))
  /\ (action_count st = length (executed_actions st) ->
      action_count st' = length (executed_actions st')).
Proof.
  intros Hrun. destruct (adaptive_loop_log _ _ _ _ _ _ _ Hrun) as [Hgrew _].
  split; [exact Hgrew|].
  destruct Hgrew as (new_actions & new_results & Hactions & Hresults & Hlen & Hcount).
  rewrite Hactions, Hresults, !length_app. split; lia.
Qed.

(** X13: why the loop stops.  It ends on the step limit exactly when the step
    counter has reached [max_actions], which a loop entered below the limit
    never exceeds; and it ends on the heuristic only with a log that
    satisfies the heuristic, which takes at least five executed actions. *)
Theorem loop_stop_causes (fuel : nat) (goal : string) (st : loop_state) (s : session)
    (cause : stop_cause) (st' : loop_state) (s' : session) :
  adaptive_loop w fuel goal st s = (Ret (cause, st'), s') ->
  (cause = StepLimit <-> max_actions <= action_count st')
  /\ (action_count st <= max_actions -> cause = StepLimit -> action_count st' = max_actions)
  /\ (cause = GoalReached ->
      _check_goal_completion (executed_actions st') goal = true
      /\ 5 <= length (executed_actions st')).
Proof.
  intros Hrun.
  destruct (adaptive_loop_log _ _ _ _ _ _ _ Hrun) as (Hgrew & Hlimit & Hgoal & Hmax).
  split; [exact Hlimit|]. split.
  - intros Hle Hcause. apply Hlimit in Hcause. specialize (Hmax Hle). lia.
  - intros Hcause. specialize (Hgoal Hcause). split; [exact Hgoal|].
    unfold _check_goal_completion in Hgoal.
    destruct (Nat.leb_spec 5 (length (executed_actions st'))); [assumption | discriminate].
Qed.

End LoopLog.

(** ** After the loop *)

Section ReportEdges.

Variable w : world.

(** The events that [report_and_close] adds, case by case. *)
Ltac report_cases st s :=
  let ready := fresh "ready" in
  let history := fresh "history" in
  let n := fresh "n" in
  destruct s as [ready history n]; unfold report_and_close, capture_page_state, close;
  cbn [trace is_initialized];
  destruct (Nat.leb max_actions (action_count st)) eqn:Hlimit; run_session;
  (destruct ready; run_session;
   [| match goal with
      | |- context [launch_ok w ?h] => destruct (launch_ok w h) eqn:Hlaunch; run_session
      end ]);
  match goal with
  | |- context [keep_open_answer w ?h] =>
      destruct (String.eqb (Py.lower (keep_open_answer w h)) "y") eqn:Hanswer; run_session
  end;
  try match goal with
      | |- context [close_ok w ?h] => destruct (close_ok w h) eqn:Hclose; run_session
      end;
  rewrite <- ?app_assoc; rewrite ?drop_app_length; cbn [app].

(** X14: the notice about the step limit is printed after the loop exactly
    when the loop ended on the step limit: among the events that follow the
    loop, the console line is there if and only if the loop's [while]
    condition was what ended it. *)
Theorem limit_notice_iff_step_limit (fuel : nat) (goal : string) (st : loop_state)
    (s : session) (cause : stop_cause) (st' : loop_state) (s' : session) :
  adaptive_loop w fuel goal st s = (Ret (cause, st'), s') ->
  In (EvConsole limit_line)
     (drop (length (trace s')) (trace (snd (report_and_close w st' goal s'))))
  <-> cause = StepLimit.
Proof.
  intros Hrun.
  destruct (adaptive_loop_log w _ _ _ _ _ _ _ Hrun) as (_ & Hcause & _).
  rewrite Hcause. clear Hrun Hcause.
  report_cases st' s';
    first [ apply Nat.leb_le in Hlimit | apply Nat.leb_gt in Hlimit ];
    (split; [intros Hin | intros Hle]); try lia; try assumption;
    try (left; reflexivity);
    cbn [In] in Hin; repeat destruct Hin as [Hin|Hin]; try discriminate; try contradiction.
Qed.



End ReportEdges.

(** ** The shape of a cleaned query *)

Section QueryShape.

Import Query.

Lemma thins_compose f g : thins f -> thins g -> thins (fun text => g (f text)).
Proof.
  intros Hf Hg text. destruct (Hf text) as [Hlen Hall], (Hg (f text)) as [Hlen' Hall'].
  split; [lia|]. intros test Hblank Htext. apply Hall', Hall; assumption.
Qed.

Lemma thins_sub_from p pending : thins (Re.sub_from p pending).
Proof.
  intros text. revert pending.
  induction text as [|c text IH]; intros pending; [split; [simpl; lia | trivial]|].
  cbn [Re.sub_from].
  assert (Hskip : forall k,
            String.length (Re.sub_from p k text) <= String.length (String c text)
            /\ forall test, test " "%char = true -> all_chars test (String c text) = true ->
                            all_chars test (Re.sub_from p k text) = true).
  { intros k. destruct (IH k) as [Hlen Hall]. split; [simpl; lia|].
    intros test Hblank Htext. cbn [all_chars] in Htext.
    apply andb_true_iff in Htext as [_ Htext]. apply Hall; assumption. }
  assert (Hkeep : String.length (String c (Re.sub_from p 0 text)) <= String.length (String c text)
            /\ forall test, test " "%char = true -> all_chars test (String c text) = true ->
                            all_chars test (String c (Re.sub_from p 0 text)) = true).
  { destruct (IH 0) as [Hlen Hall]. split; [simpl; lia|].
    intros test Hblank Htext. cbn [all_chars] in *.
    apply andb_true_iff in Htext as [Hc Htext]. rewrite Hc. cbn [andb].
    apply Hall; assumption. }
  destruct pending as [|k]; [|apply Hskip].
  destruct (Re.match_len p (String c text)) as [[|k]|]; [apply Hkeep | apply Hskip | apply Hkeep].
Qed.

Lemma thins_sub_delete p : thins (Re.sub_delete p).
Proof. apply thins_sub_from. Qed.

Lemma thins_phrases (phrases : list Re.pattern) :
  thins (fun text => fold_left (fun acc phrase => Re.sub_delete phrase acc) phrases text).
Proof.
  induction phrases as [|p phrases IH]; [intros text; split; [simpl; lia | trivial]|].
  cbn [fold_left]. exact (thins_compose _ _ (thins_sub_delete p) IH).
Qed.

Lemma thins_sub_punctuation : thins Re.sub_punctuation.
Proof.
  intros text. induction text as [|c text [Hlen Hall]]; [split; [simpl; lia | trivial]|].
  cbn [Re.sub_punctuation].
  destruct (Py.is_word c || Py.is_space c || Nat.eqb (Py.code c) 36 || Nat.eqb (Py.code c) 37).
  - split; [simpl; lia|]. intros test Hblank Htext. cbn [all_chars] in *.
    apply andb_true_iff in Htext as [-> Htext]. apply Hall; assumption.
  - split; [simpl; lia|]. intros test Hblank Htext. cbn [all_chars] in *.
    apply andb_true_iff in Htext as [_ Htext]. apply Hall; assumption.
Qed.

Lemma thins_sub_spaces_from in_run : thins (Re.sub_spaces_from in_run).
Proof.
  intros text. revert in_run.
  induction text as [|c text IH]; intros in_run; [split; [simpl; lia | trivial]|].
  cbn [Re.sub_spaces_from].
  destruct (IH true) as [Hlen1 Hall1], (IH false) as [Hlen0 Hall0].
  destruct (Py.is_space c); [destruct in_run|];
    (split; [simpl; lia|]); intros test Hblank Htext; cbn [all_chars] in *;
    apply andb_true_iff in Htext as [Hc Htext]; rewrite ?Hblank, ?Hc; cbn [andb];
    auto.
Qed.

Lemma thins_lstrip : thins Py.lstrip.
Proof.
  intros text. induction text as [|c text [Hlen Hall]]; [split; [simpl; lia | trivial]|].
  cbn [Py.lstrip]. destruct (Py.is_space c).
  - split; [simpl; lia|]. intros test Hblank Htext. cbn [all_chars] in Htext.
    apply andb_true_iff in Htext as [_ Htext]. apply Hall; assumption.
  - split; [lia | trivial].
Qed.

Lemma thins_rstrip : thins Py.rstrip.
Proof.
  intros text. induction text as [|c text [Hlen Hall]]; [split; [simpl; lia | trivial]|].
  cbn [Py.rstrip]. destruct (Py.rstrip text) as [|d r] eqn:Hr.
  - destruct (Py.is_space c); (split; [simpl; lia|]); intros test Hblank Htext;
      [reflexivity|]. cbn [all_chars] in *.
    apply andb_true_iff in Htext as [-> _]. reflexivity.
  - split; [simpl in *; lia|]. intros test Hblank Htext.
    change (all_chars test (String c (String d r))) with (test c && all_chars test (String d r)).
    cbn [all_chars] in Htext. apply andb_true_iff in Htext as [-> Htext].
    cbn [andb]. apply Hall; assumption.
Qed.

Lemma thins_strip : thins Py.strip.
Proof. exact (thins_compose _ _ thins_lstrip thins_rstrip). Qed.

Lemma rstrip_idempotent (text : string) : Py.rstrip (Py.rstrip text) = Py.rstrip text.
Proof.
  induction text as [|c text IH]; [reflexivity|].
  cbn [Py.rstrip]. destruct (Py.rstrip text) as [|d r] eqn:Hr.
  - destruct (Py.is_space c) eqn:Hc; [reflexivity|].
    cbn [Py.rstrip]. rewrite Hc. reflexivity.
  - change (Py.rstrip (String c (String d r)))
      with (match Py.rstrip (String d r) with
            | "" => if Py.is_space c then "" else String c ""
            | r' => String c r'
            end).
    rewrite IH. reflexivity.
Qed.

Lemma lstrip_rstrip_lstrip (text : string) :
  Py.lstrip (Py.rstrip (Py.lstrip text)) = Py.rstrip (Py.lstrip text).
Proof.
  induction text as [|c text IH]; [reflexivity|].
  cbn [Py.lstrip]. destruct (Py.is_space c) eqn:Hc; [exact IH|].
  cbn [Py.rstrip]. rewrite Hc.
  destruct (Py.rstrip text); cbn [Py.lstrip]; rewrite Hc; reflexivity.
Qed.

Lemma strip_idempotent (text : string) : Py.strip (Py.strip text) = Py.strip text.
Proof.
  unfold Py.strip. rewrite lstrip_rstrip_lstrip. apply rstrip_idempotent.
Qed.

Lemma all_chars_kept_sub_punctuation (text : string) :
  all_chars kept_char (Re.sub_punctuation text) = true.
Proof.
  induction text as [|c text IH]; [reflexivity|].
  cbn [Re.sub_punctuation]. fold (kept_char c).
  destruct (kept_char c) eqn:Hc; [|exact IH].
  cbn [all_chars]. rewrite Hc. exact IH.
Qed.

Lemma lower_char_not_capital (c : ascii) : not_capital (Py.lower_char c) = true.
Proof. destruct c as [[] [] [] [] [] [] [] []]; vm_compute; reflexivity. Qed.

Lemma all_chars_lower (text : string) : all_chars not_capital (Py.lower text) = true.
Proof.
  induction text as [|c text IH]; [reflexivity|].
  cbn [Py.lower all_chars]. rewrite lower_char_not_capital. exact IH.
Qed.

(** X17: cleaning never lengthens a query. *)
Theorem clean_search_query_never_longer (query : string) :
  String.length (_clean_search_query query) <= String.length query.
Proof.
  unfold _clean_search_query. destruct (already_clean query); [lia|].
  destruct (Nat.ltb _ 3).
  - destruct (thins_sub_punctuation query) as [H1 _].
    destruct (thins_strip (Re.sub_punctuation query)) as [H2 _]. lia.
  - match goal with
    | |- String.length (Py.strip (Re.sub_spaces (Re.sub_punctuation ?t))) <= _ =>
        destruct (thins_phrases phrases_to_remove (Py.lower query)) as [H1 _];
        destruct (thins_sub_punctuation t) as [H2 _];
        destruct (thins_sub_spaces_from false (Re.sub_punctuation t)) as [H3 _];
        destruct (thins_strip (Re.sub_spaces (Re.sub_punctuation t))) as [H4 _]
    end.
    unfold Re.sub_spaces in *. rewrite length_lower in H1. lia.
Qed.

(** X18: what a query looks like once it was cleaned.  A query that is not
    returned as it came holds only letters, digits, underscores, blanks, [$]
    and [%], and neither starts nor ends with a blank.  It is either the
    original without its punctuation, stripped (the way back that the
    function takes when less than three characters are left), or a text of
    three characters or more without a capital letter. *)
Theorem cleaned_query_shape (query : string) :
  already_clean query = false ->
  let cleaned := _clean_search_query query in
  all_chars kept_char cleaned = true
  /\ Py.strip cleaned = cleaned
  /\ (cleaned = Py.strip (Re.sub_punctuation query)
      \/ (3 <= String.length cleaned /\ all_chars not_capital cleaned = true)).
Proof.
  intros Hclean cleaned. subst cleaned. unfold _clean_search_query. rewrite Hclean.
  match goal with
  | |- context [Nat.ltb (String.length ?main) 3] =>
      set (cleaned := main); destruct (Nat.ltb_spec (String.length cleaned) 3) as [Hshort|Hlong]
  end.
  - split; [|split; [apply strip_idempotent | left; reflexivity]].
    apply thins_strip; [reflexivity | apply all_chars_kept_sub_punctuation].
  - split; [|split; [apply strip_idempotent | right; split; [exact Hlong|]]].
    + apply thins_strip; [reflexivity|].
      apply (thins_sub_spaces_from false); [reflexivity|].
      apply all_chars_kept_sub_punctuation.
    + apply thins_strip; [reflexivity|].
      apply (thins_sub_spaces_from false); [reflexivity|].
      apply thins_sub_punctuation; [reflexivity|].
      apply (thins_phrases phrases_to_remove); [reflexivity|].
      apply all_chars_lower.
Qed.

End QueryShape.

(** ** The Bernstein coefficients *)

Section BinomialFacts.

Import Curve.

Lemma pascal_zero n : pascal n 0 = 1.
Proof. destruct n; reflexivity. Qed.

Lemma pascal_above n : forall k, n < k -> pascal n k = 0.
Proof.
  induction n as [|n IH]; intros [|k] Hlt; try lia; [reflexivity|].
  cbn [pascal]. rewrite !IH by lia. reflexivity.
Qed.

Lemma pascal_diagonal n : pascal n n = 1.
Proof.
  induction n as [|n IH]; [reflexivity|].
  cbn [pascal]. rewrite IH, pascal_above by lia. reflexivity.
Qed.

(** Each step of the loop divides without remainder. *)
Lemma pascal_step n : forall i, pascal n (S i) * S i = pascal n i * (n - i).
Proof.
  induction n as [|n IH]; intros i.
  - destruct i; cbn [pascal]; lia.
  - destruct i as [|j].
    + cbn [pascal]. rewrite pascal_zero. specialize (IH 0). rewrite pascal_zero in IH. lia.
    + cbn [pascal].
      destruct (le_lt_dec (S j) n) as [Hle|Hgt].
      * pose proof (IH j) as H1. pose proof (IH (S j)) as H2.
        replace (n - j) with (S (n - S j)) in H1 by lia.
        replace (S n - S j) with (S (n - S j)) by lia.
        nia.
      * rewrite (pascal_above n (S j)), (pascal_above n (S (S j))) by lia.
        replace (S n - S j) with 0 by lia. lia.
Qed.

Lemma binomial_loop (n : nat) : forall i, i <= n ->
  fold_left (fun result j => (result * (Z.of_nat n - j) / (j + 1))%Z)
            (map Z.of_nat (seq 0 i)) 1%Z
  = Z.of_nat (pascal n i).
Proof.
  induction i as [|i IH]; intros Hle; [rewrite pascal_zero; reflexivity|].
  rewrite seq_S, map_app, fold_left_app, IH by lia. cbn [map fold_left Nat.add].
  replace (Z.of_nat (pascal n i) * (Z.of_nat n - Z.of_nat i))%Z
    with (Z.of_nat (pascal n (S i)) * (Z.of_nat i + 1))%Z.
  - apply Z.div_mul. lia.
  - pose proof (pascal_step n i) as Hstep.
    apply (f_equal Z.of_nat) in Hstep. rewrite !Nat2Z.inj_mul in Hstep.
    rewrite Nat2Z.inj_sub in Hstep by lia. lia.
Qed.

(** X19: [binomial] computes the binomial coefficient: on natural numbers
    its result is the entry of Pascal's triangle, zero outside the triangle.
    None of the floor divisions of the loop loses a remainder. *)
Theorem binomial_is_pascal (n k : nat) :
  binomial (Z.of_nat n) (Z.of_nat k) = Z.of_nat (pascal n k).
Proof.
  unfold binomial.
  destruct (Z.ltb_spec (Z.of_nat k) 0) as [Hneg|_]; [lia|].
  destruct (Z.ltb_spec (Z.of_nat n) (Z.of_nat k)) as [Hout|Hin]; cbn [orb].
  { rewrite pascal_above by lia. reflexivity. }
  destruct (Z.eqb_spec (Z.of_nat k) 0) as [Hzero|Hpos]; cbn [orb].
  { replace k with 0 by lia. rewrite pascal_zero. reflexivity. }
  destruct (Z.eqb_spec (Z.of_nat k) (Z.of_nat n)) as [Hfull|Hless].
  { replace k with n by lia. rewrite pascal_diagonal. reflexivity. }
  rewrite Nat2Z.id. apply binomial_loop. lia.
Qed.

End BinomialFacts.

(** ** From the response to the plan *)

Section PlanFacts.

Import Plan.

(** Reading the entries of a command that the code has built. *)
Ltac read_command :=
  unfold get_in, get_is, has_key, browser_command, terminal_command, navigate_directly;
  cbn [existsb];
  repeat first [ rewrite lookup_insert_eq
               | rewrite lookup_insert_ne by discriminate
               | rewrite lookup_empty ];
  cbn [String.eqb Ascii.eqb Bool.eqb andb orb].

Lemma extract_browser_actions_app (l1 l2 : list json) :
  _extract_browser_actions (l1 ++ l2)
  = (_extract_browser_actions l1 ++ _extract_browser_actions l2)%list.
Proof. apply flat_map_app. Qed.

Lemma extract_terminal_commands_app (l1 l2 : list json) :
  _extract_terminal_commands (l1 ++ l2)
  = (_extract_terminal_commands l1 ++ _extract_terminal_commands l2)%list.
Proof. apply flat_map_app. Qed.

Lemma browser_command_is_read (a : json) :
  _extract_browser_actions [browser_command a] = if is_action a then [a] else [].
Proof.
  unfold _extract_browser_actions. cbn [flat_map]. read_command.
  destruct (is_action a); reflexivity.
Qed.

Lemma browser_command_is_no_terminal_command (a : json) :
  _extract_terminal_commands [browser_command a] = [].
Proof. unfold _extract_terminal_commands. cbn [flat_map]. read_command. reflexivity. Qed.

Lemma terminal_command_is_read (c : string) :
  _extract_terminal_commands [terminal_command c] = if String.eqb c "" then [] else [c].
Proof.
  unfold _extract_terminal_commands. cbn [flat_map]. read_command.
  destruct c; reflexivity.
Qed.

Lemma terminal_command_is_no_action (c : string) :
  _extract_browser_actions [terminal_command c] = [].
Proof. unfold _extract_browser_actions. cbn [flat_map]. read_command. reflexivity. Qed.

Lemma terminal_commands_hold_no_action (v : json) :
  _extract_browser_actions (terminal_commands v) = [].
Proof.
  destruct v as [| | |c|items|d];
    [reflexivity | reflexivity | reflexivity | apply terminal_command_is_no_action
    | | reflexivity].
  cbn [terminal_commands]. induction items as [|item items IH]; [reflexivity|].
  cbn [flat_map]. rewrite extract_browser_actions_app, IH, app_nil_r.
  destruct item;
    [reflexivity | reflexivity | reflexivity | apply terminal_command_is_no_action
    | reflexivity | reflexivity].
Qed.

Lemma filter_nonempty_cons (c : string) (l : list string) :
  filter (fun c => c <> "") (c :: l)
  = ((if String.eqb c "" then [] else [c]) ++ filter (fun c => c <> "") l)%list.
Proof.
  destruct (String.eqb_spec c "") as [->|Hc].
  - rewrite filter_cons_False by (intros H; apply H; reflexivity). reflexivity.
  - rewrite filter_cons_True by exact Hc. reflexivity.
Qed.

Lemma terminal_commands_are_read (v : json) :
  _extract_terminal_commands (terminal_commands v)
  = filter (fun c => c <> "")
      match v with
      | JList items => omap as_str items
      | JStr c => [c]
      | _ => []
      end.
Proof.
  destruct v as [| | |c|items|d];
    [reflexivity | reflexivity | reflexivity | | | reflexivity].
  - cbn [terminal_commands]. rewrite terminal_command_is_read, filter_nonempty_cons.
    rewrite app_nil_r. reflexivity.
  - cbn [terminal_commands]. induction items as [|item items IH]; [reflexivity|].
    cbn [flat_map omap]. rewrite extract_terminal_commands_app, IH.
    destruct item as [| | |c| |];
      [reflexivity | reflexivity | reflexivity | | reflexivity | reflexivity].
    rewrite terminal_command_is_read.
    change (list_omap json string as_str (JStr c :: items)) with (c :: omap as_str items).
    rewrite filter_nonempty_cons. reflexivity.
Qed.

Lemma browser_commands_shape (browser_action : json) (commands : list json) :
  browser_commands browser_action = Ret commands ->
  commands = [] \/ exists a, commands = [browser_command a] /\ is_action a = true.
Proof.
  unfold browser_commands. destruct browser_action as [| | | | |d]; try discriminate.
  destruct (get_is d "action_type" "search" && has_key d "query") eqn:Hsearch.
  - apply andb_true_iff in Hsearch as [Hkind _].
    assert (Haction : is_action (JDict d) = true).
    { unfold get_is in Hkind. unfold is_action, has_key.
      destruct (d !! "action_type"); [reflexivity | discriminate]. }
    destruct (match d !! "query" with Some v => v | None => JStr "" end);
      try discriminate.
    destruct (direct_navigation s) as [site|]; intros H; injection H as <-; right.
    + eexists. split; [reflexivity|]. unfold is_action. read_command. reflexivity.
    + eexists. split; [reflexivity | exact Haction].
  - destruct (has_key d "action_type") eqn:Hkey; intros H; injection H as <-;
      [right | left; reflexivity].
    eexists. split; [reflexivity | exact Hkey].
Qed.


(** X21: what the two stages keep of a response.  When [_extract_commands]
    returns, the terminal commands that come out of
    [_extract_terminal_commands] are the strings that the response gave, in
    their order, without the empty ones; and at most one browser action
    comes out of [_extract_browser_actions], an object with an
    ['action_type']. *)
Theorem response_survives_extraction (response : gmap string json) (commands : list json) :
  _extract_commands response = Ret commands ->
  _extract_terminal_commands commands
    = filter (fun c => c <> "") (stated_terminal_commands response)
  /\ length (_extract_browser_actions commands) <= 1
  /\ Forall (fun a => is_action a = true) (_extract_browser_actions commands).
Proof.
  unfold _extract_commands, stated_terminal_commands.
  set (first_part := match response !! "browser_action" with
                     | Some browser_action => browser_commands browser_action
                     | None => Ret []
                     end).
  assert (Hshape : forall l, first_part = Ret l ->
            l = [] \/ exists a, l = [browser_command a] /\ is_action a = true).
  { subst first_part. intros l. destruct (response !! "browser_action") as [v|].
    - apply browser_commands_shape.
    - intros H; injection H as <-. left; reflexivity. }
  destruct first_part as [l|e]; [|discriminate].
  intros H; injection H as <-.
  rewrite extract_terminal_commands_app, extract_browser_actions_app.
  assert (Hterminal : _extract_browser_actions
                        match response !! "terminal_commands" with
                        | Some v => terminal_commands v
                        | None => []
                        end = []).
  { destruct (response !! "terminal_commands"); [apply terminal_commands_hold_no_action|].
    reflexivity. }
  assert (Hread : _extract_terminal_commands
                    match response !! "terminal_commands" with
                    | Some v => terminal_commands v
                    | None => []
                    end
                  = filter (fun c => c <> "")
                      match response !! "terminal_commands" with
                      | Some (JList items) => omap as_str items
                      | Some (JStr c) => [c]
                      | _ => []
                      end).
  { destruct (response !! "terminal_commands") as [v|]; [|reflexivity].
    rewrite terminal_commands_are_read. destruct v; reflexivity. }
  rewrite Hterminal, Hread, app_nil_r.
  destruct (Hshape l eq_refl) as [->|(a & -> & Ha)].
  - split; [reflexivity|]. split; [simpl; lia | constructor].
  - rewrite browser_command_is_no_terminal_command, browser_command_is_read, Ha.
    split; [reflexivity|]. split; [simpl; lia|]. constructor; [exact Ha | constructor].
Qed.


(** X23: [_extract_browser_actions] invents nothing.  Every action it
    returns is an object with an ['action_type'], and it stands in a command
    of type [browser] or [web], under ['action'] or in the list under
    ['actions']. *)
Theorem extracted_actions_come_from_commands (commands : list json) (a : json) :
  In a (_extract_browser_actions commands) ->
  is_action a = true
  /\ exists c, In (JDict c) commands
               /\ get_in c "type" ["browser"; "web"] = true
               /\ (c !! "action" = Some a
                   \/ exists actions, c !! "actions" = Some (JList actions) /\ In a actions).
Proof.
  unfold _extract_browser_actions. rewrite in_flat_map.
  intros (command & Hcommand & Hin).
  destruct command as [| | | | |c]; try contradiction.
  destruct (get_in c "type" ["browser"; "web"]) eqn:Htype; [|contradiction].
  destruct (is_action match c !! "action" with Some a0 => a0 | None => JDict ∅ end)
    eqn:Haction.
  - destruct Hin as [<-|[]]. split; [exact Haction|].
    exists c. split; [exact Hcommand|]. split; [exact Htype|]. left.
    destruct (c !! "action"); [reflexivity|].
    unfold is_action, has_key in Haction. rewrite lookup_empty in Haction. discriminate.
  - destruct (c !! "actions") as [[| | | |actions|]|] eqn:Hactions; try contradiction.
    apply list_elem_of_In, list_elem_of_filter in Hin as [Ha Hin].
    split; [exact Ha|]. exists c. split; [exact Hcommand|]. split; [exact Htype|].
    right. exists actions. split; [exact Hactions|]. apply list_elem_of_In. exact Hin.
Qed.

End PlanFacts.

(** ** The further properties at work *)

Lemma execute_action_launches_on_demand_witness :
  execute_action calm_world wait_action new_session
  = execute_action calm_world wait_action
      {| is_initialized := true; trace := [EvLaunch]; executions := 0 |}.
Proof.
  apply (execute_action_launches_on_demand calm_world wait_action new_session);
    reflexivity.
Defined.






(** The query [rentals in Boston] of the suggestion never reaches Google. *)
Lemma suggested_search_loses_its_query_witness :
  execute_action calm_world (Oracle.convert search_suggestion) ready_session =
    (Ret "Searched for '' on Google",
     {| is_initialized := true;
        trace := [EvScreenshot "before_search"; EvNavigate (VStr "https://www.google.com");
                  EvSearch ""; EvScreenshot "search_google"];
        executions := 1 |}).
Proof.
  apply (proj2 (proj2 (suggested_search_loses_its_query calm_world search_suggestion
                         ready_session))); reflexivity.
Defined.

(** On a page that can be captured only twice the loop executes one action
    and stops: one action and one result are added to the one of each it
    started with. *)
Lemma loop_log_stays_paired_witness :
  exists cause st' s',
    adaptive_loop two_glance_world max_actions "goal" first_step ready_session
      = (Ret (cause, st'), s')
    /\ length (results st') = 2 /\ length (executed_actions st') = 2
    /\ action_count st' = 2.
Proof.
  eexists _, _, _. split; [vm_compute; reflexivity|].
  match goal with
  | |- length (results ?st') = _ /\ _ =>
      pose proof (loop_log_stays_paired two_glance_world max_actions "goal" first_step
                    ready_session CaptureFailed st' _ ltac:(vm_compute; reflexivity))
        as (_ & Hresults & Hcount)
  end.
  specialize (Hresults eq_refl). specialize (Hcount eq_refl).
  split; [|split]; [rewrite Hresults | | rewrite Hcount]; reflexivity.
Defined.

(** From the nineteenth step the calm world gives one more action, and the
    loop ends on the step limit with twenty. *)
Lemma loop_stop_causes_witness :
  exists st' s',
    adaptive_loop calm_world max_actions "goal"
      {| results := ["Waited for 1 seconds"];
         executed_actions := [wait_action];
         action_count := 19 |} ready_session
      = (Ret (StepLimit, st'), s')
    /\ action_count st' = max_actions.
Proof.
  eexists _, _. split; [vm_compute; reflexivity|].
  match goal with
  | |- action_count ?st' = _ =>
      apply (proj1 (proj2 (loop_stop_causes calm_world max_actions "goal"
                             {| results := ["Waited for 1 seconds"];
                                executed_actions := [wait_action];
                                action_count := 19 |}
                             ready_session StepLimit st' _ ltac:(vm_compute; reflexivity))))
  end; [vm_compute; lia | reflexivity].
Defined.

(** On the blind world the loop stops at once, and no notice about the step
    limit follows. *)
Lemma limit_notice_iff_step_limit_witness :
  In (EvConsole limit_line)
     (drop 2 (trace (snd (report_and_close blind_world first_step "goal"
                            {| is_initialized := true;
                               trace := [EvCapture; EvConsole capture_failed_line];
                               executions := 0 |}))))
  <-> CaptureFailed = StepLimit.
Proof.
  apply (limit_notice_iff_step_limit blind_world 1 "goal" first_step ready_session
           CaptureFailed first_step
           {| is_initialized := true;
              trace := [EvCapture; EvConsole capture_failed_line];
              executions := 0 |}).
  reflexivity.
Defined.



Lemma cleaned_query_shape_witness :
  all_chars kept_char (Query._clean_search_query rental_request) = true
  /\ Py.strip (Query._clean_search_query rental_request)
     = Query._clean_search_query rental_request
  /\ (Query._clean_search_query rental_request
        = Py.strip (Re.sub_punctuation rental_request)
      \/ (3 <= String.length (Query._clean_search_query rental_request)
          /\ all_chars not_capital (Query._clean_search_query rental_request) = true)).
Proof.
  apply (cleaned_query_shape rental_request). vm_compute. reflexivity.
Defined.


(** Of [ls], the empty string and the number 5, only [ls] is left. *)
Lemma response_survives_extraction_witness :
  exists commands,
    Plan._extract_commands zillow_response = Ret commands
    /\ Plan._extract_terminal_commands commands
       = filter (fun c => c <> "") (stated_terminal_commands zillow_response)
    /\ length (Plan._extract_browser_actions commands) <= 1.
Proof.
  eexists. split; [vm_compute; reflexivity|].
  match goal with
  | |- Plan._extract_terminal_commands ?commands = _ /\ _ =>
      pose proof (response_survives_extraction zillow_response commands
                    ltac:(vm_compute; reflexivity)) as (Hterminal & Hlength & _)
  end.
  split; [exact Hterminal | exact Hlength].
Defined.

Lemma extracted_actions_come_from_commands_witness :
  Plan.is_action (Plan.JDict zillow_search) = true.
Proof.
  apply (proj1 (extracted_actions_come_from_commands [web_command] (Plan.JDict zillow_search)
                  ltac:(vm_compute; left; reflexivity))).
Defined.
